(** * Planet Builders (src/App.tsx): rewards, shop, activities and quiz generation

    A shallow embedding of the game logic of the React Native component [App]
    and the properties its specification states about it.

    Conventions of the embedding.

    - Numbers.  Every JavaScript number the logic computes with is an integer,
      except the combo multiplier (1.5), the results of [Math.random()] and the
      screen coordinates derived from them.  Integers are [Z], the others are
      exact rationals [Q]; all values stay far below 2^53, where binary64
      arithmetic on them is exact.  [Math.floor] is [Qfloor], and
      [Math.floor(n / 100)] on an integer [n] is [n / 100] in [Z].

    - React state.  [App] is a function component: each render binds the
      state variables ([currentProfile], [profiles], [pendingActivities], ...)
      as constants, and every handler and helper defined in that render
      ([answerQuestion], [addResources], [addXP], [updateProfile], ...) closes
      over those constants.  A setter such as [setCurrentProfile v] does not
      change what the running handler reads; it schedules [v] for the next
      render, and of several calls of one setter the last one wins.  A handler
      is therefore a function from the rendered state (the snapshot) to the
      sequence of setter calls and platform effects it issues; [commit] applies
      that sequence to obtain the state of the next render.

    - Storage.  [saveProfiles] and [savePendingActivities] await
      [AsyncStorage.setItem] and then call the state setter.  The writes are
      taken to succeed and to complete, in the order issued, before the next
      user event.

    - Environment.  [Date.now()], the ISO date strings, the successive results
      of [Math.random()], the arrangement produced by [Array.prototype.sort]
      under the random comparator, and the built-ins [trim] and [parseInt] are
      supplied by an environment record [Env].

    - Loops.  The two [while] loops of the question generators have no bound;
      they are run with fuel, and [None] means that the loop is still running
      when the fuel is spent.

    - Not modelled: styles, animations, sounds, and the render functions,
      except for which handler each button calls.
*)

From Stdlib Require Import ZArith QArith Qround List String Ascii Bool Lia Permutation.
From Stdlib Require Import DecimalString DecimalZ.
Import ListNotations.

Open Scope string_scope.
Open Scope list_scope.
Open Scope Z_scope.

(* ================================================================== *)
(** ** Types *)
(* ================================================================== *)

Inductive Screen :=
  | Screen_profiles | Screen_planet | Screen_missions | Screen_mission_play
  | Screen_build | Screen_leaderboard | Screen_parent.

Inductive AgeGroup := Age_5_6 | Age_7_8 | Age_9_10 | Age_11_12.

Inductive MissionType := maths | english | science.

Inductive BiomeType := grass | forest | ocean | volcano | ice | desert | crystal | space.

Inductive StructureType := house | tower | tree | rocket | bridge | dome | mine | lab.

Inductive CreatureType := blob | floater | runner | flyer | giant.

Inductive BuildCategory := biomes | structures | creatures.

(** The [type] tag of a planet item and its [itemType]; the three enumerations
    of the source have pairwise different literals, so their union is a sum. *)
Inductive ItemKind := Kind_biome | Kind_structure | Kind_creature.

Inductive ItemType :=
  | OfBiome (b : BiomeType)
  | OfStructure (s : StructureType)
  | OfCreature (c : CreatureType).

(** The keys [addResources] may be called with. *)
Inductive ResourceKey := Rcrystals | Rartifacts | Rspecimens.

Definition MissionType_eqb (a b : MissionType) : bool :=
  match a, b with
  | maths, maths | english, english | science, science => true
  | _, _ => false
  end.

Definition BiomeType_eqb (a b : BiomeType) : bool :=
  match a, b with
  | grass, grass | forest, forest | ocean, ocean | volcano, volcano
  | ice, ice | desert, desert | crystal, crystal | space, space => true
  | _, _ => false
  end.

Definition StructureType_eqb (a b : StructureType) : bool :=
  match a, b with
  | house, house | tower, tower | tree, tree | rocket, rocket
  | bridge, bridge | dome, dome | mine, mine | lab, lab => true
  | _, _ => false
  end.

Definition CreatureType_eqb (a b : CreatureType) : bool :=
  match a, b with
  | blob, blob | floater, floater | runner, runner | flyer, flyer | giant, giant => true
  | _, _ => false
  end.

Module PlanetItem.
Record Position := mkPosition { x : Q; y : Q }.
Record t := mk {
  id : string;
  type : ItemKind;
  itemType : ItemType;
  position : Position;
  level : Z
}.
End PlanetItem.

Record PlayerProfile := mkProfile {
  id : string;
  name : string;
  age : Z;
  ageGroup : AgeGroup;
  (* Resources *)
  crystals : Z;
  artifacts : Z;
  specimens : Z;
  solarEnergy : Z;
  (* Progress *)
  xp : Z;
  level : Z;
  streak : Z;
  lastActiveDate : string;
  (* Planet *)
  planetName : string;
  planetItems : list PlanetItem.t;
  unlockedBiomes : list BiomeType;
  unlockedStructures : list StructureType;
  unlockedCreatures : list CreatureType;
  (* Stats *)
  mathsCorrect : Z;
  englishCorrect : Z;
  scienceCorrect : Z;
  totalCorrect : Z;
  bestCombo : Z;
  offScreenMinutes : Z;
  (* Multiplier *)
  currentCombo : Z
}.

Module Question.
Record t := mk {
  question : string;
  options : list string;
  correctIndex : Z;
  explanation : option string
}.
End Question.

Module PendingActivity.
Record t := mk {
  id : string;
  name : string;
  icon : string;
  minutes : Z;
  solarEnergy : Z;
  date : string
}.
End PendingActivity.

(* ================================================================== *)
(** ** Object spread: [{ ...profile, field: v }] *)
(* ================================================================== *)

Definition with_crystals (v : Z) (p : PlayerProfile) : PlayerProfile :=
  mkProfile (id p) (name p) (age p) (ageGroup p) v (artifacts p) (specimens p)
    (solarEnergy p) (xp p) (level p) (streak p) (lastActiveDate p) (planetName p)
    (planetItems p) (unlockedBiomes p) (unlockedStructures p) (unlockedCreatures p)
    (mathsCorrect p) (englishCorrect p) (scienceCorrect p) (totalCorrect p) (bestCombo p)
    (offScreenMinutes p) (currentCombo p).
Definition with_artifacts (v : Z) (p : PlayerProfile) : PlayerProfile :=
  mkProfile (id p) (name p) (age p) (ageGroup p) (crystals p) v (specimens p)
    (solarEnergy p) (xp p) (level p) (streak p) (lastActiveDate p) (planetName p)
    (planetItems p) (unlockedBiomes p) (unlockedStructures p) (unlockedCreatures p)
    (mathsCorrect p) (englishCorrect p) (scienceCorrect p) (totalCorrect p) (bestCombo p)
    (offScreenMinutes p) (currentCombo p).
Definition with_specimens (v : Z) (p : PlayerProfile) : PlayerProfile :=
  mkProfile (id p) (name p) (age p) (ageGroup p) (crystals p) (artifacts p) v
    (solarEnergy p) (xp p) (level p) (streak p) (lastActiveDate p) (planetName p)
    (planetItems p) (unlockedBiomes p) (unlockedStructures p) (unlockedCreatures p)
    (mathsCorrect p) (englishCorrect p) (scienceCorrect p) (totalCorrect p) (bestCombo p)
    (offScreenMinutes p) (currentCombo p).
Definition with_solarEnergy (v : Z) (p : PlayerProfile) : PlayerProfile :=
  mkProfile (id p) (name p) (age p) (ageGroup p) (crystals p) (artifacts p) (specimens p) v
    (xp p) (level p) (streak p) (lastActiveDate p) (planetName p) (planetItems p)
    (unlockedBiomes p) (unlockedStructures p) (unlockedCreatures p) (mathsCorrect p)
    (englishCorrect p) (scienceCorrect p) (totalCorrect p) (bestCombo p)
    (offScreenMinutes p) (currentCombo p).
Definition with_xp (v : Z) (p : PlayerProfile) : PlayerProfile :=
  mkProfile (id p) (name p) (age p) (ageGroup p) (crystals p) (artifacts p) (specimens p)
    (solarEnergy p) v (level p) (streak p) (lastActiveDate p) (planetName p)
    (planetItems p) (unlockedBiomes p) (unlockedStructures p) (unlockedCreatures p)
    (mathsCorrect p) (englishCorrect p) (scienceCorrect p) (totalCorrect p) (bestCombo p)
    (offScreenMinutes p) (currentCombo p).
Definition with_level (v : Z) (p : PlayerProfile) : PlayerProfile :=
  mkProfile (id p) (name p) (age p) (ageGroup p) (crystals p) (artifacts p) (specimens p)
    (solarEnergy p) (xp p) v (streak p) (lastActiveDate p) (planetName p) (planetItems p)
    (unlockedBiomes p) (unlockedStructures p) (unlockedCreatures p) (mathsCorrect p)
    (englishCorrect p) (scienceCorrect p) (totalCorrect p) (bestCombo p)
    (offScreenMinutes p) (currentCombo p).
Definition with_streak (v : Z) (p : PlayerProfile) : PlayerProfile :=
  mkProfile (id p) (name p) (age p) (ageGroup p) (crystals p) (artifacts p) (specimens p)
    (solarEnergy p) (xp p) (level p) v (lastActiveDate p) (planetName p) (planetItems p)
    (unlockedBiomes p) (unlockedStructures p) (unlockedCreatures p) (mathsCorrect p)
    (englishCorrect p) (scienceCorrect p) (totalCorrect p) (bestCombo p)
    (offScreenMinutes p) (currentCombo p).
Definition with_lastActiveDate (v : string) (p : PlayerProfile) : PlayerProfile :=
  mkProfile (id p) (name p) (age p) (ageGroup p) (crystals p) (artifacts p) (specimens p)
    (solarEnergy p) (xp p) (level p) (streak p) v (planetName p) (planetItems p)
    (unlockedBiomes p) (unlockedStructures p) (unlockedCreatures p) (mathsCorrect p)
    (englishCorrect p) (scienceCorrect p) (totalCorrect p) (bestCombo p)
    (offScreenMinutes p) (currentCombo p).
Definition with_planetItems (v : list PlanetItem.t) (p : PlayerProfile) : PlayerProfile :=
  mkProfile (id p) (name p) (age p) (ageGroup p) (crystals p) (artifacts p) (specimens p)
    (solarEnergy p) (xp p) (level p) (streak p) (lastActiveDate p) (planetName p) v
    (unlockedBiomes p) (unlockedStructures p) (unlockedCreatures p) (mathsCorrect p)
    (englishCorrect p) (scienceCorrect p) (totalCorrect p) (bestCombo p)
    (offScreenMinutes p) (currentCombo p).
Definition with_unlockedBiomes (v : list BiomeType) (p : PlayerProfile) : PlayerProfile :=
  mkProfile (id p) (name p) (age p) (ageGroup p) (crystals p) (artifacts p) (specimens p)
    (solarEnergy p) (xp p) (level p) (streak p) (lastActiveDate p) (planetName p)
    (planetItems p) v (unlockedStructures p) (unlockedCreatures p) (mathsCorrect p)
    (englishCorrect p) (scienceCorrect p) (totalCorrect p) (bestCombo p)
    (offScreenMinutes p) (currentCombo p).
Definition with_unlockedStructures (v : list StructureType) (p : PlayerProfile)
  : PlayerProfile :=
  mkProfile (id p) (name p) (age p) (ageGroup p) (crystals p) (artifacts p) (specimens p)
    (solarEnergy p) (xp p) (level p) (streak p) (lastActiveDate p) (planetName p)
    (planetItems p) (unlockedBiomes p) v (unlockedCreatures p) (mathsCorrect p)
    (englishCorrect p) (scienceCorrect p) (totalCorrect p) (bestCombo p)
    (offScreenMinutes p) (currentCombo p).
Definition with_unlockedCreatures (v : list CreatureType) (p : PlayerProfile)
  : PlayerProfile :=
  mkProfile (id p) (name p) (age p) (ageGroup p) (crystals p) (artifacts p) (specimens p)
    (solarEnergy p) (xp p) (level p) (streak p) (lastActiveDate p) (planetName p)
    (planetItems p) (unlockedBiomes p) (unlockedStructures p) v (mathsCorrect p)
    (englishCorrect p) (scienceCorrect p) (totalCorrect p) (bestCombo p)
    (offScreenMinutes p) (currentCombo p).
Definition with_mathsCorrect (v : Z) (p : PlayerProfile) : PlayerProfile :=
  mkProfile (id p) (name p) (age p) (ageGroup p) (crystals p) (artifacts p) (specimens p)
    (solarEnergy p) (xp p) (level p) (streak p) (lastActiveDate p) (planetName p)
    (planetItems p) (unlockedBiomes p) (unlockedStructures p) (unlockedCreatures p) v
    (englishCorrect p) (scienceCorrect p) (totalCorrect p) (bestCombo p)
    (offScreenMinutes p) (currentCombo p).
Definition with_englishCorrect (v : Z) (p : PlayerProfile) : PlayerProfile :=
  mkProfile (id p) (name p) (age p) (ageGroup p) (crystals p) (artifacts p) (specimens p)
    (solarEnergy p) (xp p) (level p) (streak p) (lastActiveDate p) (planetName p)
    (planetItems p) (unlockedBiomes p) (unlockedStructures p) (unlockedCreatures p)
    (mathsCorrect p) v (scienceCorrect p) (totalCorrect p) (bestCombo p)
    (offScreenMinutes p) (currentCombo p).
Definition with_scienceCorrect (v : Z) (p : PlayerProfile) : PlayerProfile :=
  mkProfile (id p) (name p) (age p) (ageGroup p) (crystals p) (artifacts p) (specimens p)
    (solarEnergy p) (xp p) (level p) (streak p) (lastActiveDate p) (planetName p)
    (planetItems p) (unlockedBiomes p) (unlockedStructures p) (unlockedCreatures p)
    (mathsCorrect p) (englishCorrect p) v (totalCorrect p) (bestCombo p)
    (offScreenMinutes p) (currentCombo p).
Definition with_totalCorrect (v : Z) (p : PlayerProfile) : PlayerProfile :=
  mkProfile (id p) (name p) (age p) (ageGroup p) (crystals p) (artifacts p) (specimens p)
    (solarEnergy p) (xp p) (level p) (streak p) (lastActiveDate p) (planetName p)
    (planetItems p) (unlockedBiomes p) (unlockedStructures p) (unlockedCreatures p)
    (mathsCorrect p) (englishCorrect p) (scienceCorrect p) v (bestCombo p)
    (offScreenMinutes p) (currentCombo p).
Definition with_bestCombo (v : Z) (p : PlayerProfile) : PlayerProfile :=
  mkProfile (id p) (name p) (age p) (ageGroup p) (crystals p) (artifacts p) (specimens p)
    (solarEnergy p) (xp p) (level p) (streak p) (lastActiveDate p) (planetName p)
    (planetItems p) (unlockedBiomes p) (unlockedStructures p) (unlockedCreatures p)
    (mathsCorrect p) (englishCorrect p) (scienceCorrect p) (totalCorrect p) v
    (offScreenMinutes p) (currentCombo p).
Definition with_offScreenMinutes (v : Z) (p : PlayerProfile) : PlayerProfile :=
  mkProfile (id p) (name p) (age p) (ageGroup p) (crystals p) (artifacts p) (specimens p)
    (solarEnergy p) (xp p) (level p) (streak p) (lastActiveDate p) (planetName p)
    (planetItems p) (unlockedBiomes p) (unlockedStructures p) (unlockedCreatures p)
    (mathsCorrect p) (englishCorrect p) (scienceCorrect p) (totalCorrect p) (bestCombo p) v
    (currentCombo p).
Definition with_currentCombo (v : Z) (p : PlayerProfile) : PlayerProfile :=
  mkProfile (id p) (name p) (age p) (ageGroup p) (crystals p) (artifacts p) (specimens p)
    (solarEnergy p) (xp p) (level p) (streak p) (lastActiveDate p) (planetName p)
    (planetItems p) (unlockedBiomes p) (unlockedStructures p) (unlockedCreatures p)
    (mathsCorrect p) (englishCorrect p) (scienceCorrect p) (totalCorrect p) (bestCombo p)
    (offScreenMinutes p) v.

(** [profile[type]] and [{ ...profile, [type]: v }] for a resource key. *)
Definition getResource (type : ResourceKey) (p : PlayerProfile) : Z :=
  match type with
  | Rcrystals => crystals p
  | Rartifacts => artifacts p
  | Rspecimens => specimens p
  end.

Definition with_resource (type : ResourceKey) (v : Z) (p : PlayerProfile) : PlayerProfile :=
  match type with
  | Rcrystals => with_crystals v p
  | Rartifacts => with_artifacts v p
  | Rspecimens => with_specimens v p
  end.

(* ================================================================== *)
(** ** Game config *)
(* ================================================================== *)

(** XP needed per level *)
Definition XP_PER_LEVEL : Z := 100.

Module BiomeShop.
Record Cost := mkCost { crystals : Z; solar : Z }.
Record t := mk { type : BiomeType; name : string; icon : string; cost : Cost }.
End BiomeShop.

Module StructureShop.
Record Cost := mkCost { crystals : Z; artifacts : Z }.
Record t := mk { type : StructureType; name : string; icon : string; cost : Cost }.
End StructureShop.

Module CreatureShop.
Record Cost := mkCost { specimens : Z }.
Record t := mk { type : CreatureType; name : string; icon : string; cost : Cost }.
End CreatureShop.

Definition BIOME_SHOP : list BiomeShop.t :=
  [ BiomeShop.mk grass "Grassland" "🌿" (BiomeShop.mkCost 0 0);
    BiomeShop.mk forest "Forest" "🌲" (BiomeShop.mkCost 50 20);
    BiomeShop.mk ocean "Ocean" "🌊" (BiomeShop.mkCost 80 30);
    BiomeShop.mk desert "Desert" "🏜️" (BiomeShop.mkCost 100 40);
    BiomeShop.mk ice "Ice Lands" "❄️" (BiomeShop.mkCost 150 50);
    BiomeShop.mk volcano "Volcano" "🌋" (BiomeShop.mkCost 200 60);
    BiomeShop.mk crystal "Crystal Caves" "💎" (BiomeShop.mkCost 300 80);
    BiomeShop.mk space "Space Station" "🚀" (BiomeShop.mkCost 500 100) ].

Definition STRUCTURE_SHOP : list StructureShop.t :=
  [ StructureShop.mk house "House" "🏠" (StructureShop.mkCost 20 5);
    StructureShop.mk tree "Magic Tree" "🌳" (StructureShop.mkCost 15 3);
    StructureShop.mk tower "Tower" "🗼" (StructureShop.mkCost 50 15);
    StructureShop.mk mine "Crystal Mine" "⛏️" (StructureShop.mkCost 80 20);
    StructureShop.mk lab "Science Lab" "🔬" (StructureShop.mkCost 100 30);
    StructureShop.mk dome "Bio Dome" "🔮" (StructureShop.mkCost 150 40);
    StructureShop.mk bridge "Rainbow Bridge" "🌈" (StructureShop.mkCost 200 50);
    StructureShop.mk rocket "Rocket" "🚀" (StructureShop.mkCost 400 100) ].

Definition CREATURE_SHOP : list CreatureShop.t :=
  [ CreatureShop.mk blob "Space Blob" "🫧" (CreatureShop.mkCost 10);
    CreatureShop.mk floater "Floater" "🎈" (CreatureShop.mkCost 25);
    CreatureShop.mk runner "Zoom Runner" "🦎" (CreatureShop.mkCost 40);
    CreatureShop.mk flyer "Sky Dancer" "🦋" (CreatureShop.mkCost 60);
    CreatureShop.mk giant "Gentle Giant" "🦕" (CreatureShop.mkCost 100) ].

(** Off-screen activities *)
Module Activity.
Record t := mk { id : string; name : string; icon : string; solarPerMin : Z }.
End Activity.

Definition ACTIVITIES : list Activity.t :=
  [ Activity.mk "outdoor" "Played Outside" "🌳" 3;
    Activity.mk "reading" "Read a Book" "📖" 2;
    Activity.mk "creative" "Arts & Crafts" "🎨" 2;
    Activity.mk "helping" "Helped at Home" "🏠" 2;
    Activity.mk "exercise" "Exercise/Sport" "⚽" 3;
    Activity.mk "social" "Played with Friends" "👫" 2 ].

(** Age-appropriate questions config *)
Module AgeConfig.
Record Range := mkRange { min : Z; max : Z }.
Record t := mk {
  mathsRange : Range;
  operations : list string;
  spellingWords : list string
}.
End AgeConfig.

Definition AGE_CONFIG (g : AgeGroup) : AgeConfig.t :=
  match g with
  | Age_5_6 =>
      AgeConfig.mk (AgeConfig.mkRange 1 10)
        ["addition"; "subtraction"]
        ["cat"; "dog"; "sun"; "mum"; "dad"; "red"; "big"; "run"; "the"; "and"]
  | Age_7_8 =>
      AgeConfig.mk (AgeConfig.mkRange 1 50)
        ["addition"; "subtraction"; "multiplication"]
        ["because"; "friend"; "school"; "house"; "people"; "water"; "about"; "would";
         "their"; "could"]
  | Age_9_10 =>
      AgeConfig.mk (AgeConfig.mkRange 1 100)
        ["addition"; "subtraction"; "multiplication"; "division"]
        ["necessary"; "separate"; "definitely"; "temperature"; "environment"; "government";
         "immediately"; "interesting"; "particular"; "experience"]
  | Age_11_12 =>
      AgeConfig.mk (AgeConfig.mkRange 1 1000)
        ["addition"; "subtraction"; "multiplication"; "division"]
        ["accommodate"; "conscience"; "exaggerate"; "guarantee"; "independent";
         "maintenance"; "occurrence"; "questionnaire"; "recommendation"; "surveillance"]
  end.

(** Science questions *)
Definition SCIENCE_QUESTIONS : list Question.t :=
  [ Question.mk "What planet is known as the Red Planet?"
      ["Mars"; "Venus"; "Jupiter"; "Saturn"] 0 None;
    Question.mk "How many legs does a spider have?" ["8"; "6"; "4"; "10"] 0 None;
    Question.mk "What do plants need to make food?"
      ["Sunlight"; "Darkness"; "Music"; "Wind"] 0 None;
    Question.mk "What is the largest planet?" ["Jupiter"; "Saturn"; "Earth"; "Mars"] 0 None;
    Question.mk "What organ pumps blood?" ["Heart"; "Brain"; "Lungs"; "Stomach"] 0 None;
    Question.mk "What gas do we breathe in?"
      ["Oxygen"; "Carbon dioxide"; "Nitrogen"; "Helium"] 0 None;
    Question.mk "How many bones in adult body?" ["206"; "100"; "300"; "50"] 0 None;
    Question.mk "What is H2O?" ["Water"; "Salt"; "Sugar"; "Air"] 0 None;
    Question.mk "Which animal is a mammal?"
      ["Dolphin"; "Shark"; "Salmon"; "Octopus"] 0 None;
    Question.mk "What makes a rainbow?" ["Light & water"; "Wind"; "Clouds"; "Stars"] 0 None ].

(* ================================================================== *)
(** ** Environment *)
(* ================================================================== *)

(** A result of [Math.random()]: a number in [0, 1). *)
Record Unit01 := mkUnit01 {
  value : Q;
  value_range : (Qle_bool 0 value && negb (Qle_bool 1 value)) = true
}.

Record Env := mkEnv {
  (** [Date.now()] *)
  Date_now : Z;
  (** [new Date().toISOString()] *)
  Date_iso : string;
  (** [new Date().toISOString().split('T')[0]] *)
  today : string;
  (** [new Date(Date.now() - 86400000).toISOString().split('T')[0]] *)
  yesterday : string;
  (** the successive results of [Math.random()] in the handler that runs *)
  Math_random : nat -> Unit01;
  (** where [Array.prototype.sort] under the comparator
      [() => Math.random() - 0.5] places each element; see [sortRandom] *)
  sortPlacement : list nat;
  (** [String.prototype.trim] and [parseInt] ([None] is NaN) *)
  trim : string -> string;
  parseInt : string -> option Z
}.

(** [String(n)] and [n.toString()] for an integer [n] *)
Definition String_of (n : Z) : string := NilZero.string_of_int (Z.to_int n).

(** [Math.floor(r * n)] for a random [r] *)
Definition randomBelow (r : Unit01) (n : Z) : Z := Qfloor (value r * inject_Z n).

(* ================================================================== *)
(** ** Helper functions *)
(* ================================================================== *)

Definition createDefaultProfile (env : Env) (name : string) (age : Z) : PlayerProfile :=
  let ageGroup :=
    if age <=? 6 then Age_5_6
    else if age <=? 8 then Age_7_8
    else if age <=? 10 then Age_9_10
    else Age_11_12 in
  mkProfile
    (* id *) (String_of (Date_now env))
    (* name *) name
    (* age *) age
    (* ageGroup *) ageGroup
    (* crystals *) 50
    (* artifacts *) 10
    (* specimens *) 5
    (* solarEnergy *) 30
    (* xp *) 0
    (* level *) 1
    (* streak *) 0
    (* lastActiveDate *) (today env)
    (* planetName *) (name ++ "'s World")%string
    (* planetItems *)
    [ PlanetItem.mk "1" Kind_biome (OfBiome grass) (PlanetItem.mkPosition 50 50) 1 ]
    (* unlockedBiomes *) [grass]
    (* unlockedStructures *) []
    (* unlockedCreatures *) []
    (* mathsCorrect *) 0
    (* englishCorrect *) 0
    (* scienceCorrect *) 0
    (* totalCorrect *) 0
    (* bestCombo *) 0
    (* offScreenMinutes *) 0
    (* currentCombo *) 0.

Definition getComboMultiplier (combo : Z) : Q :=
  if combo >=? 10 then 5%Q
  else if combo >=? 7 then 3%Q
  else if combo >=? 5 then 2%Q
  else if combo >=? 3 then (3 # 2)%Q
  else 1%Q.

(* ================================================================== *)
(** ** State of the component *)
(* ================================================================== *)

(** One field per [useState] of [App] that the logic reads or writes. *)
Record AppState := mkState {
  (* Navigation *)
  screen : Screen;
  currentMissionType : MissionType;
  (* Profiles *)
  profiles : list PlayerProfile;
  currentProfile : option PlayerProfile;
  showCreateProfile : bool;
  newName : string;
  newAge : string;
  (* Mission state *)
  currentQuestion : option Question.t;
  selectedAnswer : option Z;
  isAnswered : bool;
  sessionCorrect : Z;
  sessionTotal : Z;
  (* Build mode *)
  buildCategory : BuildCategory;
  (* Activities *)
  pendingActivities : list PendingActivity.t;
  selectedActivity : option string;
  activityMinutes : string;
  showActivityModal : bool;
  (* Parent mode *)
  isParentMode : bool;
  (* UI state *)
  showLevelUp : bool;
  showReward : option (ResourceKey * Z)
}.

(** The state of the first render: the defaults of the [useState] calls. *)
Definition initialState : AppState :=
  mkState Screen_profiles maths [] None false "" "" None None false 0 0 biomes [] None ""
    false false false None.

(** What is written to [AsyncStorage]. *)
Inductive Stored :=
  | StoredProfiles (v : list PlayerProfile)
  | StoredActivities (v : list PendingActivity.t).

(** What a handler issues: calls of the state setters, and platform effects.
    [setSessionCorrect] and [setSessionTotal] take the updater function
    ([prev => prev + 1]; a plain value [v] is the constant updater). *)
Inductive Action :=
  | setScreen (v : Screen)
  | setCurrentMissionType (v : MissionType)
  | setProfiles (v : list PlayerProfile)
  | setCurrentProfile (v : option PlayerProfile)
  | setShowCreateProfile (v : bool)
  | setNewName (v : string)
  | setNewAge (v : string)
  | setCurrentQuestion (v : option Question.t)
  | setSelectedAnswer (v : option Z)
  | setIsAnswered (v : bool)
  | setSessionCorrect (v : Z -> Z)
  | setSessionTotal (v : Z -> Z)
  | setBuildCategory (v : BuildCategory)
  | setPendingActivities (v : list PendingActivity.t)
  | setSelectedActivity (v : option string)
  | setActivityMinutes (v : string)
  | setShowActivityModal (v : bool)
  | setIsParentMode (v : bool)
  | setShowLevelUp (v : bool)
  | setShowReward (v : option (ResourceKey * Z))
  (* effects outside the React state *)
  | Alert_alert (title message : string)
  | Vibration_vibrate
  | AsyncStorage_setItem (key : string) (v : Stored)
  | setTimeout_hideReward
  | Animated_levelUp
  | Animated_combo.

Definition applyAction (a : Action) (s : AppState) : AppState :=
  match a with
  | setScreen v =>
      mkState v (currentMissionType s) (profiles s) (currentProfile s)
        (showCreateProfile s) (newName s) (newAge s) (currentQuestion s)
        (selectedAnswer s) (isAnswered s) (sessionCorrect s) (sessionTotal s)
        (buildCategory s) (pendingActivities s) (selectedActivity s)
        (activityMinutes s) (showActivityModal s) (isParentMode s) (showLevelUp s)
        (showReward s)
  | setCurrentMissionType v =>
      mkState (screen s) v (profiles s) (currentProfile s) (showCreateProfile s)
        (newName s) (newAge s) (currentQuestion s) (selectedAnswer s) (isAnswered s)
        (sessionCorrect s) (sessionTotal s) (buildCategory s) (pendingActivities s)
        (selectedActivity s) (activityMinutes s) (showActivityModal s)
        (isParentMode s) (showLevelUp s) (showReward s)
  | setProfiles v =>
      mkState (screen s) (currentMissionType s) v (currentProfile s)
        (showCreateProfile s) (newName s) (newAge s) (currentQuestion s)
        (selectedAnswer s) (isAnswered s) (sessionCorrect s) (sessionTotal s)
        (buildCategory s) (pendingActivities s) (selectedActivity s)
        (activityMinutes s) (showActivityModal s) (isParentMode s) (showLevelUp s)
        (showReward s)
  | setCurrentProfile v =>
      mkState (screen s) (currentMissionType s) (profiles s) v (showCreateProfile s)
        (newName s) (newAge s) (currentQuestion s) (selectedAnswer s) (isAnswered s)
        (sessionCorrect s) (sessionTotal s) (buildCategory s) (pendingActivities s)
        (selectedActivity s) (activityMinutes s) (showActivityModal s)
        (isParentMode s) (showLevelUp s) (showReward s)
  | setShowCreateProfile v =>
      mkState (screen s) (currentMissionType s) (profiles s) (currentProfile s) v
        (newName s) (newAge s) (currentQuestion s) (selectedAnswer s) (isAnswered s)
        (sessionCorrect s) (sessionTotal s) (buildCategory s) (pendingActivities s)
        (selectedActivity s) (activityMinutes s) (showActivityModal s)
        (isParentMode s) (showLevelUp s) (showReward s)
  | setNewName v =>
      mkState (screen s) (currentMissionType s) (profiles s) (currentProfile s)
        (showCreateProfile s) v (newAge s) (currentQuestion s) (selectedAnswer s)
        (isAnswered s) (sessionCorrect s) (sessionTotal s) (buildCategory s)
        (pendingActivities s) (selectedActivity s) (activityMinutes s)
        (showActivityModal s) (isParentMode s) (showLevelUp s) (showReward s)
  | setNewAge v =>
      mkState (screen s) (currentMissionType s) (profiles s) (currentProfile s)
        (showCreateProfile s) (newName s) v (currentQuestion s) (selectedAnswer s)
        (isAnswered s) (sessionCorrect s) (sessionTotal s) (buildCategory s)
        (pendingActivities s) (selectedActivity s) (activityMinutes s)
        (showActivityModal s) (isParentMode s) (showLevelUp s) (showReward s)
  | setCurrentQuestion v =>
      mkState (screen s) (currentMissionType s) (profiles s) (currentProfile s)
        (showCreateProfile s) (newName s) (newAge s) v (selectedAnswer s)
        (isAnswered s) (sessionCorrect s) (sessionTotal s) (buildCategory s)
        (pendingActivities s) (selectedActivity s) (activityMinutes s)
        (showActivityModal s) (isParentMode s) (showLevelUp s) (showReward s)
  | setSelectedAnswer v =>
      mkState (screen s) (currentMissionType s) (profiles s) (currentProfile s)
        (showCreateProfile s) (newName s) (newAge s) (currentQuestion s) v
        (isAnswered s) (sessionCorrect s) (sessionTotal s) (buildCategory s)
        (pendingActivities s) (selectedActivity s) (activityMinutes s)
        (showActivityModal s) (isParentMode s) (showLevelUp s) (showReward s)
  | setIsAnswered v =>
      mkState (screen s) (currentMissionType s) (profiles s) (currentProfile s)
        (showCreateProfile s) (newName s) (newAge s) (currentQuestion s)
        (selectedAnswer s) v (sessionCorrect s) (sessionTotal s) (buildCategory s)
        (pendingActivities s) (selectedActivity s) (activityMinutes s)
        (showActivityModal s) (isParentMode s) (showLevelUp s) (showReward s)
  | setSessionCorrect v =>
      mkState (screen s) (currentMissionType s) (profiles s) (currentProfile s)
        (showCreateProfile s) (newName s) (newAge s) (currentQuestion s)
        (selectedAnswer s) (isAnswered s) (v (sessionCorrect s)) (sessionTotal s)
        (buildCategory s) (pendingActivities s) (selectedActivity s)
        (activityMinutes s) (showActivityModal s) (isParentMode s) (showLevelUp s)
        (showReward s)
  | setSessionTotal v =>
      mkState (screen s) (currentMissionType s) (profiles s) (currentProfile s)
        (showCreateProfile s) (newName s) (newAge s) (currentQuestion s)
        (selectedAnswer s) (isAnswered s) (sessionCorrect s) (v (sessionTotal s))
        (buildCategory s) (pendingActivities s) (selectedActivity s)
        (activityMinutes s) (showActivityModal s) (isParentMode s) (showLevelUp s)
        (showReward s)
  | setBuildCategory v =>
      mkState (screen s) (currentMissionType s) (profiles s) (currentProfile s)
        (showCreateProfile s) (newName s) (newAge s) (currentQuestion s)
        (selectedAnswer s) (isAnswered s) (sessionCorrect s) (sessionTotal s) v
        (pendingActivities s) (selectedActivity s) (activityMinutes s)
        (showActivityModal s) (isParentMode s) (showLevelUp s) (showReward s)
  | setPendingActivities v =>
      mkState (screen s) (currentMissionType s) (profiles s) (currentProfile s)
        (showCreateProfile s) (newName s) (newAge s) (currentQuestion s)
        (selectedAnswer s) (isAnswered s) (sessionCorrect s) (sessionTotal s)
        (buildCategory s) v (selectedActivity s) (activityMinutes s)
        (showActivityModal s) (isParentMode s) (showLevelUp s) (showReward s)
  | setSelectedActivity v =>
      mkState (screen s) (currentMissionType s) (profiles s) (currentProfile s)
        (showCreateProfile s) (newName s) (newAge s) (currentQuestion s)
        (selectedAnswer s) (isAnswered s) (sessionCorrect s) (sessionTotal s)
        (buildCategory s) (pendingActivities s) v (activityMinutes s)
        (showActivityModal s) (isParentMode s) (showLevelUp s) (showReward s)
  | setActivityMinutes v =>
      mkState (screen s) (currentMissionType s) (profiles s) (currentProfile s)
        (showCreateProfile s) (newName s) (newAge s) (currentQuestion s)
        (selectedAnswer s) (isAnswered s) (sessionCorrect s) (sessionTotal s)
        (buildCategory s) (pendingActivities s) (selectedActivity s) v
        (showActivityModal s) (isParentMode s) (showLevelUp s) (showReward s)
  | setShowActivityModal v =>
      mkState (screen s) (currentMissionType s) (profiles s) (currentProfile s)
        (showCreateProfile s) (newName s) (newAge s) (currentQuestion s)
        (selectedAnswer s) (isAnswered s) (sessionCorrect s) (sessionTotal s)
        (buildCategory s) (pendingActivities s) (selectedActivity s)
        (activityMinutes s) v (isParentMode s) (showLevelUp s) (showReward s)
  | setIsParentMode v =>
      mkState (screen s) (currentMissionType s) (profiles s) (currentProfile s)
        (showCreateProfile s) (newName s) (newAge s) (currentQuestion s)
        (selectedAnswer s) (isAnswered s) (sessionCorrect s) (sessionTotal s)
        (buildCategory s) (pendingActivities s) (selectedActivity s)
        (activityMinutes s) (showActivityModal s) v (showLevelUp s) (showReward s)
  | setShowLevelUp v =>
      mkState (screen s) (currentMissionType s) (profiles s) (currentProfile s)
        (showCreateProfile s) (newName s) (newAge s) (currentQuestion s)
        (selectedAnswer s) (isAnswered s) (sessionCorrect s) (sessionTotal s)
        (buildCategory s) (pendingActivities s) (selectedActivity s)
        (activityMinutes s) (showActivityModal s) (isParentMode s) v (showReward s)
  | setShowReward v =>
      mkState (screen s) (currentMissionType s) (profiles s) (currentProfile s)
        (showCreateProfile s) (newName s) (newAge s) (currentQuestion s)
        (selectedAnswer s) (isAnswered s) (sessionCorrect s) (sessionTotal s)
        (buildCategory s) (pendingActivities s) (selectedActivity s)
        (activityMinutes s) (showActivityModal s) (isParentMode s) (showLevelUp s) v
  | Alert_alert _ _ | Vibration_vibrate | AsyncStorage_setItem _ _
  | setTimeout_hideReward | Animated_levelUp | Animated_combo => s
  end.

(** The state of the next render: the issued setter calls applied in order. *)
Definition commit (acts : list Action) (s : AppState) : AppState :=
  fold_left (fun st a => applyAction a st) acts s.

(** A handler, run in the render whose state is the snapshot it is given. *)
Definition Handler := AppState -> list Action.

(** The state after the handler has run in the render of [s]. *)
Definition run (h : Handler) (s : AppState) : AppState := commit (h s) s.

(** The alerts a handler showed. *)
Definition alerts (acts : list Action) : list (string * string) :=
  flat_map (fun a => match a with Alert_alert t m => [(t, m)] | _ => [] end) acts.

(** The values a handler wrote to storage. *)
Definition stored (acts : list Action) : list (string * Stored) :=
  flat_map (fun a => match a with AsyncStorage_setItem k v => [(k, v)] | _ => [] end) acts.

(* ================================================================== *)
(** ** Data persistence *)
(* ================================================================== *)

Definition saveProfiles (newProfiles : list PlayerProfile) : list Action :=
  [ AsyncStorage_setItem "planetProfiles" (StoredProfiles newProfiles);
    setProfiles newProfiles ].

Definition savePendingActivities (activities : list PendingActivity.t) : list Action :=
  [ AsyncStorage_setItem "planetActivities" (StoredActivities activities);
    setPendingActivities activities ].

Definition updateProfile (profile : PlayerProfile) : Handler := fun snap =>
  let updated :=
    map (fun p => if (id p =? id profile)%string then profile else p) (profiles snap) in
  saveProfiles updated ++ [ setCurrentProfile (Some profile) ].

(* ================================================================== *)
(** ** Profile management *)
(* ================================================================== *)

Definition selectProfile (env : Env) (profile : PlayerProfile) : Handler := fun snap =>
  let updatedProfile :=
    if (lastActiveDate profile =? yesterday env)%string
    then with_streak (streak profile + 1) profile
    else if negb (lastActiveDate profile =? today env)%string
    then with_streak 1 profile
    else profile in
  let updatedProfile := with_lastActiveDate (today env) updatedProfile in
  [ setCurrentProfile (Some updatedProfile) ]
  ++ updateProfile updatedProfile snap
  ++ [ setScreen Screen_planet ].

Definition createProfile (env : Env) : Handler := fun snap =>
  if (trim env (newName snap) =? "")%string || (trim env (newAge snap) =? "")%string
  then [ Alert_alert "Oops!" "Please enter a name and age" ]
  else
    match parseInt env (newAge snap) with
    | None => [ Alert_alert "Oops!" "Please enter an age between 4 and 14" ]
    | Some age =>
        if (age <? 4) || (age >? 14)
        then [ Alert_alert "Oops!" "Please enter an age between 4 and 14" ]
        else
          let profile := createDefaultProfile env (trim env (newName snap)) age in
          let updated := profiles snap ++ [ profile ] in
          saveProfiles updated
          ++ [ setNewName ""; setNewAge ""; setShowCreateProfile false ]
          ++ selectProfile env profile snap
          ++ [ Vibration_vibrate ]
    end.

(* ================================================================== *)
(** ** Game logic *)
(* ================================================================== *)

Definition addXP (amount : Z) : Handler := fun snap =>
  match currentProfile snap with
  | None => []
  | Some cp =>
      let oldLevel := level cp in
      let newXP := xp cp + amount in
      let newLevel := newXP / XP_PER_LEVEL + 1 in
      let updated := with_level newLevel (with_xp newXP cp) in
      if newLevel >? oldLevel
      then
        (* Level up!  Bonus rewards on level up *)
        let updated := with_crystals (crystals updated + 25 * newLevel) updated in
        let updated := with_solarEnergy (solarEnergy updated + 10 * newLevel) updated in
        [ setShowLevelUp true; Vibration_vibrate; Animated_levelUp ]
        ++ updateProfile updated snap
      else updateProfile updated snap
  end.

Definition addResources (type : ResourceKey) (baseAmount : Z) : Handler := fun snap =>
  match currentProfile snap with
  | None => []
  | Some cp =>
      let multiplier := getComboMultiplier (currentCombo cp) in
      let amount := Qfloor (inject_Z baseAmount * multiplier) in
      let updated := with_resource type (getResource type cp + amount) cp in
      updateProfile updated snap
      ++ [ setShowReward (Some (type, amount)); setTimeout_hideReward ]
  end.

(* ================================================================== *)
(** ** Build logic *)
(* ================================================================== *)

(** [Math.random() * span + offset] *)
Definition randomCoordinate (r : Unit01) (span offset : Z) : Q :=
  (value r * inject_Z span + inject_Z offset)%Q.

Definition buyBiome (env : Env) (biome : BiomeShop.t) : Handler := fun snap =>
  match currentProfile snap with
  | None => []
  | Some cp =>
      if (crystals cp <? BiomeShop.crystals (BiomeShop.cost biome))
         || (solarEnergy cp <? BiomeShop.solar (BiomeShop.cost biome))
      then [ Alert_alert "Not enough resources!"
               "Complete more missions and outdoor activities." ]
      else if existsb (BiomeType_eqb (BiomeShop.type biome)) (unlockedBiomes cp)
      then [ Alert_alert "Already unlocked!" "You already have this biome." ]
      else
        let item :=
          PlanetItem.mk (String_of (Date_now env)) Kind_biome
            (OfBiome (BiomeShop.type biome))
            (PlanetItem.mkPosition
               (randomCoordinate (Math_random env 0) 80 10)
               (randomCoordinate (Math_random env 1) 80 10))
            1 in
        let updated :=
          with_planetItems (planetItems cp ++ [ item ])
            (with_unlockedBiomes (unlockedBiomes cp ++ [ BiomeShop.type biome ])
               (with_solarEnergy (solarEnergy cp - BiomeShop.solar (BiomeShop.cost biome))
                  (with_crystals (crystals cp - BiomeShop.crystals (BiomeShop.cost biome))
                     cp))) in
        updateProfile updated snap
        ++ [ Vibration_vibrate;
             Alert_alert "Biome Unlocked!"
               (BiomeShop.name biome ++ " has been added to your planet!")%string ]
  end.

Definition buyStructure (env : Env) (structure : StructureShop.t) : Handler := fun snap =>
  match currentProfile snap with
  | None => []
  | Some cp =>
      if (crystals cp <? StructureShop.crystals (StructureShop.cost structure))
         || (artifacts cp <? StructureShop.artifacts (StructureShop.cost structure))
      then [ Alert_alert "Not enough resources!"
               "Complete more missions to earn crystals and artifacts." ]
      else
        let item :=
          PlanetItem.mk (String_of (Date_now env)) Kind_structure
            (OfStructure (StructureShop.type structure))
            (PlanetItem.mkPosition
               (randomCoordinate (Math_random env 0) 70 15)
               (randomCoordinate (Math_random env 1) 70 15))
            1 in
        let updated :=
          with_planetItems (planetItems cp ++ [ item ])
            (with_unlockedStructures
               (unlockedStructures cp ++ [ StructureShop.type structure ])
               (with_artifacts
                  (artifacts cp - StructureShop.artifacts (StructureShop.cost structure))
                  (with_crystals
                     (crystals cp - StructureShop.crystals (StructureShop.cost structure))
                     cp))) in
        updateProfile updated snap
        ++ [ Vibration_vibrate;
             Alert_alert "Structure Built!"
               (StructureShop.name structure ++ " has been added to your planet!")%string ]
  end.

Definition buyCreature (env : Env) (creature : CreatureShop.t) : Handler := fun snap =>
  match currentProfile snap with
  | None => []
  | Some cp =>
      if specimens cp <? CreatureShop.specimens (CreatureShop.cost creature)
      then [ Alert_alert "Not enough specimens!" "Complete more science missions." ]
      else
        let item :=
          PlanetItem.mk (String_of (Date_now env)) Kind_creature
            (OfCreature (CreatureShop.type creature))
            (PlanetItem.mkPosition
               (randomCoordinate (Math_random env 0) 60 20)
               (randomCoordinate (Math_random env 1) 60 20))
            1 in
        let updated :=
          with_planetItems (planetItems cp ++ [ item ])
            (with_unlockedCreatures
               (unlockedCreatures cp ++ [ CreatureShop.type creature ])
               (with_specimens
                  (specimens cp - CreatureShop.specimens (CreatureShop.cost creature))
                  cp)) in
        updateProfile updated snap
        ++ [ Vibration_vibrate;
             Alert_alert "Creature Added!"
               (CreatureShop.name creature ++ " now lives on your planet!")%string ]
  end.

(* ================================================================== *)
(** ** Activity logic *)
(* ================================================================== *)

Definition submitActivity (env : Env) : Handler := fun snap =>
  match selectedActivity snap, currentProfile snap with
  | Some selected, Some _ =>
      if (selected =? "")%string || (activityMinutes snap =? "")%string then []
      else
        match parseInt env (activityMinutes snap) with
        | None => [ Alert_alert "Oops!" "Please enter valid minutes (1-180)" ]
        | Some minutes =>
            if (minutes <=? 0) || (minutes >? 180)
            then [ Alert_alert "Oops!" "Please enter valid minutes (1-180)" ]
            else
              match find (fun a => (Activity.id a =? selected)%string) ACTIVITIES with
              | None => []
              | Some activityType =>
                  let activity :=
                    PendingActivity.mk (String_of (Date_now env))
                      (Activity.name activityType) (Activity.icon activityType) minutes
                      (* Math.round of an integer product *)
                      (minutes * Activity.solarPerMin activityType)
                      (Date_iso env) in
                  savePendingActivities (pendingActivities snap ++ [ activity ])
                  ++ [ setSelectedActivity None; setActivityMinutes "";
                       setShowActivityModal false;
                       Alert_alert "Activity Logged!"
                         ("Ask a parent to verify to earn "
                          ++ String_of (PendingActivity.solarEnergy activity)
                          ++ " Solar Energy!")%string ]
              end
        end
  | _, _ => []
  end.

Definition verifyActivity (activityId : string) : Handler := fun snap =>
  match find (fun a => (PendingActivity.id a =? activityId)%string) (pendingActivities snap),
        currentProfile snap with
  | Some activity, Some cp =>
      let updated :=
        with_offScreenMinutes (offScreenMinutes cp + PendingActivity.minutes activity)
          (with_solarEnergy (solarEnergy cp + PendingActivity.solarEnergy activity) cp) in
      updateProfile updated snap
      ++ savePendingActivities
           (filter (fun a => negb (PendingActivity.id a =? activityId)%string)
              (pendingActivities snap))
      ++ [ Vibration_vibrate ]
  | _, _ => []
  end.

(** The reject button of the parent screen: the inline handler
    [() => savePendingActivities(pendingActivities.filter(a => a.id !== activity.id))]. *)
Definition rejectActivity (activityId : string) : Handler := fun snap =>
  savePendingActivities
    (filter (fun a => negb (PendingActivity.id a =? activityId)%string)
       (pendingActivities snap)).

(* ================================================================== *)
(** ** Mission logic: question generation *)
(* ================================================================== *)

(** [l.includes(x)] and [l.indexOf(x)] ([-1] when absent). *)
Definition includes {A} (eqb : A -> A -> bool) (x : A) (l : list A) : bool :=
  existsb (fun y => eqb y x) l.

Fixpoint indexOf {A} (eqb : A -> A -> bool) (x : A) (l : list A) : Z :=
  match l with
  | [] => -1
  | y :: rest =>
      if eqb y x then 0
      else let i := indexOf eqb x rest in if i <? 0 then -1 else i + 1
  end.

(** [l.sort(() => Math.random() - 0.5)].  The comparator is not consistent, so
    the order of the result is implementation-defined; the result holds the
    elements of [l], rearranged.  The environment gives the rearrangement: each
    element is inserted at its position of [placement] among the rearranged
    elements that follow it (positions past the end mean the end). *)
Definition insertAt {A} (n : nat) (x : A) (l : list A) : list A :=
  firstn n l ++ x :: skipn n l.

Fixpoint sortRandom {A} (placement : list nat) (l : list A) : list A :=
  match l with
  | [] => []
  | x :: rest => insertAt (hd 0%nat placement) x (sortRandom (tl placement) rest)
  end.

(** The arithmetic problem drawn by the [switch] of [generateMathsQuestion]. *)
Record MathsProblem := mkProblem {
  operand_a : Z;
  operand_b : Z;
  answer : Z;
  questionText : string
}.

Definition drawProblem (env : Env) (min max : Z) (operation : string) : MathsProblem :=
  let r1 := Math_random env 1 in
  let r2 := Math_random env 2 in
  if (operation =? "addition")%string then
    let a := randomBelow r1 (max - min + 1) + min in
    let b := randomBelow r2 (max - min + 1) + min in
    mkProblem a b (a + b) (String_of a ++ " + " ++ String_of b ++ " = ?")%string
  else if (operation =? "subtraction")%string then
    let a := randomBelow r1 (max - min + 1) + min in
    let b := randomBelow r2 (Z.min a max) + 1 in
    let '(a, b) := if b >? a then (b, a) else (a, b) in
    mkProblem a b (a - b) (String_of a ++ " - " ++ String_of b ++ " = ?")%string
  else if (operation =? "multiplication")%string then
    let a := randomBelow r1 12 + 1 in
    let b := randomBelow r2 12 + 1 in
    mkProblem a b (a * b) (String_of a ++ " × " ++ String_of b ++ " = ?")%string
  else if (operation =? "division")%string then
    let b := randomBelow r1 12 + 1 in
    let answer := randomBelow r2 12 + 1 in
    let a := b * answer in
    mkProblem a b answer (String_of a ++ " ÷ " ++ String_of b ++ " = ?")%string
  else
    let a := randomBelow r1 max + 1 in
    let b := randomBelow r2 max + 1 in
    mkProblem a b (a + b) (String_of a ++ " + " ++ String_of b ++ " = ?")%string.

(** The loop [while (options.length < 4) { ... }], run for at most [fuel]
    iterations; [k] is the index of the next [Math.random()] result.  [None]:
    the loop is still running after [fuel] iterations. *)
Fixpoint fillOptions (fuel : nat) (rnd : nat -> Unit01) (k : nat) (answer : Z)
  (options : list Z) : option (list Z) :=
  if Z.of_nat (List.length options) <? 4 then
    match fuel with
    | O => None
    | S fuel' =>
        let wrong := answer + (randomBelow (rnd k) 10 - 5) in
        if negb (wrong =? answer) && (wrong >=? 0) && negb (includes Z.eqb wrong options)
        then fillOptions fuel' rnd (S k) answer (options ++ [ wrong ])
        else fillOptions fuel' rnd (S k) answer options
    end
  else Some options.

Definition generateMathsQuestion (fuel : nat) (env : Env) (snap : AppState)
  : option Question.t :=
  match currentProfile snap with
  | None => Some (Question.mk "" [] 0 None)
  | Some cp =>
      let config := AGE_CONFIG (ageGroup cp) in
      let min := AgeConfig.min (AgeConfig.mathsRange config) in
      let max := AgeConfig.max (AgeConfig.mathsRange config) in
      let operation :=
        nth (Z.to_nat (randomBelow (Math_random env 0)
                         (Z.of_nat (List.length (AgeConfig.operations config)))))
          (AgeConfig.operations config) "" in
      let problem := drawProblem env min max operation in
      match fillOptions fuel (Math_random env) 3 (answer problem) [ answer problem ] with
      | None => None
      | Some options =>
          let shuffled := sortRandom (sortPlacement env) options in
          Some (Question.mk (questionText problem) (map String_of shuffled)
                  (indexOf Z.eqb (answer problem) shuffled) None)
      end
  end.

(** [w.slice(start)] and [w.slice(start, end)] on a string of single-byte
    characters. *)
Definition slice (w : string) (start : Z) (end_ : option Z) : string :=
  let len := Z.of_nat (String.length w) in
  let clamp i := if i <? 0 then Z.max (len + i) 0 else Z.min i len in
  let from := clamp start in
  let to := match end_ with None => len | Some e => clamp e end in
  substring (Z.to_nat from) (Z.to_nat (Z.max (to - from) 0)) w.

(** [w.replace(c, d)] for one-character strings: the first occurrence only. *)
Fixpoint replace (c d : ascii) (w : string) : string :=
  match w with
  | EmptyString => EmptyString
  | String a rest => if Ascii.eqb a c then String d rest else String a (replace c d rest)
  end.

Definition patterns : list (string -> string) :=
  [ (fun w => let last := slice w (-1) None in slice w 0 (Some (-1)) ++ (last ++ last));
    (fun w => slice w 0 (Some 1) ++ slice w 2 (Some 3) ++ slice w 1 (Some 2)
              ++ slice w 3 None);
    (fun w => replace "e" "a" w);
    (fun w => replace "i" "e" w);
    (fun w => w ++ "e") ]%string.

(** The loop [while (misspellings.length < 3) { ... }], as [fillOptions]. *)
Fixpoint fillMisspellings (fuel : nat) (rnd : nat -> Unit01) (k : nat) (word : string)
  (misspellings : list string) : option (list string) :=
  if Z.of_nat (List.length misspellings) <? 3 then
    match fuel with
    | O => None
    | S fuel' =>
        let pattern :=
          nth (Z.to_nat (randomBelow (rnd k) (Z.of_nat (List.length patterns)))) patterns
            (fun w => w) in
        let misspelled := pattern word in
        if negb (misspelled =? word)%string
           && negb (includes String.eqb misspelled misspellings)
        then fillMisspellings fuel' rnd (S k) word (misspellings ++ [ misspelled ])
        else fillMisspellings fuel' rnd (S k) word misspellings
    end
  else Some misspellings.

Definition generateEnglishQuestion (fuel : nat) (env : Env) (snap : AppState)
  : option Question.t :=
  match currentProfile snap with
  | None => Some (Question.mk "" [] 0 None)
  | Some cp =>
      let config := AGE_CONFIG (ageGroup cp) in
      let word :=
        nth (Z.to_nat (randomBelow (Math_random env 0)
                         (Z.of_nat (List.length (AgeConfig.spellingWords config)))))
          (AgeConfig.spellingWords config) "" in
      match fillMisspellings fuel (Math_random env) 1 word [] with
      | None => None
      | Some misspellings =>
          let options := word :: misspellings in
          let shuffled := sortRandom (sortPlacement env) options in
          Some (Question.mk "Which spelling is correct?" shuffled
                  (indexOf String.eqb word shuffled) None)
      end
  end.

Definition generateScienceQuestion (env : Env) : Question.t :=
  let q :=
    nth (Z.to_nat (randomBelow (Math_random env 0) (Z.of_nat (List.length SCIENCE_QUESTIONS))))
      SCIENCE_QUESTIONS (Question.mk "" [] 0 None) in
  let shuffled := sortRandom (sortPlacement env) (Question.options q) in
  Question.mk (Question.question q) shuffled
    (indexOf String.eqb
       (nth (Z.to_nat (Question.correctIndex q)) (Question.options q) "") shuffled)
    (Question.explanation q).

(** [None]: the generator's loop is still running after [fuel] iterations. *)
Definition generateQuestion (fuel : nat) (env : Env) (type : MissionType)
  (snap : AppState) : option (list Action) :=
  let question :=
    match type with
    | maths => generateMathsQuestion fuel env snap
    | english => generateEnglishQuestion fuel env snap
    | science => Some (generateScienceQuestion env)
    end in
  match question with
  | None => None
  | Some q => Some [ setCurrentQuestion (Some q); setSelectedAnswer None;
                     setIsAnswered false ]
  end.

Definition startMission (fuel : nat) (env : Env) (type : MissionType) (snap : AppState)
  : option (list Action) :=
  match generateQuestion fuel env type snap with
  | None => None
  | Some shown =>
      Some ([ setCurrentMissionType type;
              setSessionCorrect (fun _ => 0);
              setSessionTotal (fun _ => 0) ]
            ++ match currentProfile snap with
               | Some cp => updateProfile (with_currentCombo 0 cp) snap
               | None => []
               end
            ++ shown
            ++ [ setScreen Screen_mission_play ])
  end.

(* ================================================================== *)
(** ** Mission logic: answering *)
(* ================================================================== *)

Definition answerQuestion (index : Z) : Handler := fun snap =>
  match currentQuestion snap, currentProfile snap with
  | Some question, Some cp =>
      if isAnswered snap then []
      else
        let isCorrect := index =? Question.correctIndex question in
        [ setSelectedAnswer (Some index); setIsAnswered true ]
        ++ (if isCorrect then
              (* Update combo *)
              let newCombo := currentCombo cp + 1 in
              let updated :=
                with_totalCorrect (totalCorrect cp + 1)
                  (with_bestCombo (Z.max (bestCombo cp) newCombo)
                     (with_currentCombo newCombo cp)) in
              (* Add subject-specific stats *)
              let updated :=
                if MissionType_eqb (currentMissionType snap) maths
                then with_mathsCorrect (mathsCorrect updated + 1) updated else updated in
              let updated :=
                if MissionType_eqb (currentMissionType snap) english
                then with_englishCorrect (englishCorrect updated + 1) updated
                else updated in
              let updated :=
                if MissionType_eqb (currentMissionType snap) science
                then with_scienceCorrect (scienceCorrect updated + 1) updated
                else updated in
              [ Vibration_vibrate; setSessionCorrect (fun prev => prev + 1) ]
              ++ updateProfile updated snap
              (* Award resources *)
              ++ (if MissionType_eqb (currentMissionType snap) maths
                  then addResources Rcrystals 10 snap else [])
              ++ (if MissionType_eqb (currentMissionType snap) english
                  then addResources Rartifacts 5 snap else [])
              ++ (if MissionType_eqb (currentMissionType snap) science
                  then addResources Rspecimens 3 snap else [])
              (* Award XP *)
              ++ addXP 10 snap
              ++ [ Animated_combo ]
            else
              (* Reset combo *)
              [ Vibration_vibrate ] ++ updateProfile (with_currentCombo 0 cp) snap)
        ++ [ setSessionTotal (fun prev => prev + 1) ]
  | _, _ => []
  end.

(* ================================================================== *)
(** ** Events: what the rendered screens let the user do *)
(* ================================================================== *)

Inductive Event :=
  (* setters called directly from the render code: navigation, modals, tabs,
     text inputs, and the two timer callbacks that hide a popup *)
  | Press_setScreen (v : Screen)
  | Press_setShowCreateProfile (v : bool)
  | Change_newName (v : string)
  | Change_newAge (v : string)
  | Press_setBuildCategory (v : BuildCategory)
  | Press_setShowActivityModal (v : bool)
  | Press_setSelectedActivity (activityId : string)
  | Change_activityMinutes (v : string)
  | Press_cancelActivity
  | Press_setIsParentMode (v : bool)
  | Timeout_hideReward
  | Animation_levelUpDone
  (* handlers *)
  | Press_createProfile
  | Press_selectProfile (profile : PlayerProfile)
  | Press_startMission (type : MissionType)
  | Press_nextQuestion
  | Press_answerQuestion (index : Z)
  | Press_buyBiome (biome : BiomeShop.t)
  | Press_buyStructure (structure : StructureShop.t)
  | Press_buyCreature (creature : CreatureShop.t)
  | Press_submitActivity
  | Press_verifyActivity (activityId : string)
  | Press_rejectActivity (activityId : string).

(** The actions the handler of an event issues in the render of [snap]. *)
Definition handle (fuel : nat) (env : Env) (ev : Event) (snap : AppState)
  : option (list Action) :=
  match ev with
  | Press_setScreen v => Some [ setScreen v ]
  | Press_setShowCreateProfile v => Some [ setShowCreateProfile v ]
  | Change_newName v => Some [ setNewName v ]
  | Change_newAge v => Some [ setNewAge v ]
  | Press_setBuildCategory v => Some [ setBuildCategory v ]
  | Press_setShowActivityModal v => Some [ setShowActivityModal v ]
  | Press_setSelectedActivity activityId => Some [ setSelectedActivity (Some activityId) ]
  | Change_activityMinutes v => Some [ setActivityMinutes v ]
  | Press_cancelActivity =>
      Some [ setShowActivityModal false; setSelectedActivity None; setActivityMinutes "" ]
  | Press_setIsParentMode v => Some [ setIsParentMode v ]
  | Timeout_hideReward => Some [ setShowReward None ]
  | Animation_levelUpDone => Some [ setShowLevelUp false ]
  | Press_createProfile => Some (createProfile env snap)
  | Press_selectProfile profile => Some (selectProfile env profile snap)
  | Press_startMission type => startMission fuel env type snap
  | Press_nextQuestion => generateQuestion fuel env (currentMissionType snap) snap
  | Press_answerQuestion index => Some (answerQuestion index snap)
  | Press_buyBiome biome => Some (buyBiome env biome snap)
  | Press_buyStructure structure => Some (buyStructure env structure snap)
  | Press_buyCreature creature => Some (buyCreature env creature snap)
  | Press_submitActivity => Some (submitActivity env snap)
  | Press_verifyActivity activityId => Some (verifyActivity activityId snap)
  | Press_rejectActivity activityId => Some (rejectActivity activityId snap)
  end.

(** What the render of [s] offers: the profile cards are those of [profiles],
    the shop rows those of the three tables, the activity rows those of
    [ACTIVITIES], the verify and reject buttons those of [pendingActivities].
    Which screen is visible and which buttons are disabled (an owned biome, the
    options of an answered question) is not taken into account: every handler
    may run in every state, which is more than the screens allow. *)
Definition offered (ev : Event) (s : AppState) : Prop :=
  match ev with
  | Press_selectProfile profile => In profile (profiles s)
  | Press_buyBiome biome => In biome BIOME_SHOP
  | Press_buyStructure structure => In structure STRUCTURE_SHOP
  | Press_buyCreature creature => In creature CREATURE_SHOP
  | Press_setSelectedActivity activityId => In activityId (map Activity.id ACTIVITIES)
  | Press_verifyActivity activityId | Press_rejectActivity activityId =>
      In activityId (map PendingActivity.id (pendingActivities s))
  | _ => True
  end.

(** The state an app start begins with: the defaults, then [loadProfiles] and
    [loadPendingActivities] with what the last run stored. *)
Definition restart (s : AppState) : AppState :=
  commit [ setProfiles (profiles s); setPendingActivities (pendingActivities s) ]
    initialState.

Inductive step (s : AppState) : AppState -> Prop :=
  | step_event (fuel : nat) (env : Env) (ev : Event) (acts : list Action) :
      offered ev s ->
      handle fuel env ev s = Some acts ->
      step s (commit acts s)
  | step_restart : step s (restart s).

(** The states of the app, from a first start with empty storage. *)
Inductive reachable : AppState -> Prop :=
  | reachable_init : reachable initialState
  | reachable_step (s s' : AppState) : reachable s -> step s s' -> reachable s'.

(* ================================================================== *)
(** ** Predicates of the specification *)
(* ================================================================== *)

(** The invariant of the data model: no resource counter is negative and the
    level is the one the XP total determines. *)
Definition goodProfile (p : PlayerProfile) : Prop :=
  0 <= crystals p /\ 0 <= artifacts p /\ 0 <= specimens p /\ 0 <= solarEnergy p
  /\ 0 <= xp p /\ level p = xp p / XP_PER_LEVEL + 1.

(** The rate of the activity type a pending activity was logged for: the
    entry keeps the type's name, and the names of [ACTIVITIES] are distinct. *)
Definition activityRate (a : PendingActivity.t) : option Z :=
  option_map Activity.solarPerMin
    (find (fun t => (Activity.name t =? PendingActivity.name a)%string) ACTIVITIES).

(** A queue entry as [submitActivity] builds it. *)
Definition submitted (a : PendingActivity.t) : Prop :=
  exists rate,
    activityRate a = Some rate
    /\ 0 < rate
    /\ 0 < PendingActivity.minutes a <= 180
    /\ PendingActivity.solarEnergy a = PendingActivity.minutes a * rate.

Definition goodState (s : AppState) : Prop :=
  (forall p, currentProfile s = Some p -> goodProfile p)
  /\ Forall goodProfile (profiles s)
  /\ Forall submitted (pendingActivities s).

Definition goodAction (a : Action) : Prop :=
  match a with
  | setCurrentProfile (Some p) => goodProfile p
  | setProfiles l => Forall goodProfile l
  | setPendingActivities l => Forall submitted l
  | _ => True
  end.

(** The problem [generateMathsQuestion] draws for the profile [cp]. *)
Definition askedProblem (env : Env) (cp : PlayerProfile) : MathsProblem :=
  let config := AGE_CONFIG (ageGroup cp) in
  drawProblem env (AgeConfig.min (AgeConfig.mathsRange config))
    (AgeConfig.max (AgeConfig.mathsRange config))
    (nth (Z.to_nat (randomBelow (Math_random env 0)
                      (Z.of_nat (List.length (AgeConfig.operations config)))))
       (AgeConfig.operations config) "").

(** The answer of a problem is what its text asks for. *)
Definition soundProblem (p : MathsProblem) : Prop :=
  let a := operand_a p in
  let b := operand_b p in
  (questionText p = (String_of a ++ " + " ++ String_of b ++ " = ?")%string
   /\ answer p = a + b)
  \/ (questionText p = (String_of a ++ " - " ++ String_of b ++ " = ?")%string
      /\ answer p = a - b)
  \/ (questionText p = (String_of a ++ " × " ++ String_of b ++ " = ?")%string
      /\ answer p = a * b)
  \/ (questionText p = (String_of a ++ " ÷ " ++ String_of b ++ " = ?")%string
      /\ 0 < b /\ a = b * answer p).

(** A question for [problem]: its text, four pairwise different options that
    are the decimal forms of four pairwise different non-negative integers,
    and [correctIndex] at the position of the answer. *)
Definition fourOptionQuestion (problem : MathsProblem) (q : Question.t) : Prop :=
  Question.question q = questionText problem
  /\ exists values : list Z,
      Question.options q = map String_of values
      /\ List.length values = 4%nat
      /\ NoDup values
      /\ Forall (fun v => 0 <= v) values
      /\ NoDup (Question.options q)
      /\ 0 <= Question.correctIndex q < 4
      /\ nth_error values (Z.to_nat (Question.correctIndex q)) = Some (answer problem)
      /\ nth_error (Question.options q) (Z.to_nat (Question.correctIndex q))
         = Some (String_of (answer problem)).

(** A stream of [Math.random()] results in which, from every point on, each
    of the ten values of [Math.floor(Math.random() * 10)] occurs again. *)
Definition fair (rnd : nat -> Unit01) : Prop :=
  forall (n : nat) (d : Z), 0 <= d < 10 ->
    exists m : nat, (n <= m)%nat /\ randomBelow (rnd m) 10 = d.

(* ================================================================== *)
(** ** Sample data *)
(* ================================================================== *)

Definition r_half : Unit01 := mkUnit01 (1 # 2) eq_refl.

(** A stream of [Math.random()] results running through 0.05, 0.15, ..., 0.95. *)
Definition r_tenths : list Unit01 :=
  [ mkUnit01 (1 # 20) eq_refl; mkUnit01 (3 # 20) eq_refl; mkUnit01 (5 # 20) eq_refl;
    mkUnit01 (7 # 20) eq_refl; mkUnit01 (9 # 20) eq_refl; mkUnit01 (11 # 20) eq_refl;
    mkUnit01 (13 # 20) eq_refl; mkUnit01 (15 # 20) eq_refl; mkUnit01 (17 # 20) eq_refl;
    mkUnit01 (19 # 20) eq_refl ].

Definition cyclingRandom (k : nat) : Unit01 := nth (k mod 10) r_tenths r_half.

(** [parseInt] on the strings of decimal digits a number pad produces. *)
Definition parseDigits (s : string) : option Z :=
  option_map Z.of_int (NilZero.int_of_string s).

Definition sampleEnv (rnd : nat -> Unit01) : Env :=
  mkEnv 1700000000000 "2023-11-14T22:13:20.000Z" "2023-11-14" "2023-11-13" rnd
    [ 2; 0; 1; 0 ]%nat (fun s => s) parseDigits.

Definition sampleProfile : PlayerProfile :=
  createDefaultProfile (sampleEnv (fun _ => r_half)) "Ada" 7.

(** A first session: a profile is created, then a maths mission started. *)
Definition env0 : Env := sampleEnv cyclingRandom.

Definition afterEvent (fuel : nat) (env : Env) (ev : Event) (s : AppState) : AppState :=
  match handle fuel env ev s with
  | Some acts => commit acts s
  | None => s
  end.

Definition sessionCreated : AppState :=
  afterEvent 0 env0 Press_createProfile
    (afterEvent 0 env0 (Change_newAge "7")
       (afterEvent 0 env0 (Change_newName "Ada") initialState)).

Definition sessionPlaying : AppState :=
  afterEvent 20 env0 (Press_startMission maths) sessionCreated.

(** The state in which [p] is the current profile and nothing else has
    happened. *)
Definition withProfile (p : PlayerProfile) : AppState :=
  commit [ setCurrentProfile (Some p) ] initialState.

Definition forestItem : BiomeShop.t := BiomeShop.mk forest "Forest" "🌲" (BiomeShop.mkCost 50 20).
Definition grassItem : BiomeShop.t := BiomeShop.mk grass "Grassland" "🌿" (BiomeShop.mkCost 0 0).
Definition treeItem : StructureShop.t :=
  StructureShop.mk tree "Magic Tree" "🌳" (StructureShop.mkCost 15 3).
Definition blobItem : CreatureShop.t := CreatureShop.mk blob "Space Blob" "🫧" (CreatureShop.mkCost 10).

(** A profile that already owns a magic tree and a space blob. *)
Definition builderProfile : PlayerProfile :=
  with_unlockedCreatures [ blob ]
    (with_unlockedStructures [ tree ] (with_specimens 30 sampleProfile)).

Definition rocketItem : StructureShop.t :=
  StructureShop.mk rocket "Rocket" "🚀" (StructureShop.mkCost 400 100).





(* ================================================================== *)
(** * Properties *)
(* ================================================================== *)

(* ================================================================== *)
(** ** Combo multiplier *)
(* ================================================================== *)

Lemma getComboMultiplier_cases (c : Z) :
  (c < 3 /\ getComboMultiplier c = 1%Q)
  \/ (3 <= c < 5 /\ getComboMultiplier c = (3 # 2)%Q)
  \/ (5 <= c < 7 /\ getComboMultiplier c = 2%Q)
  \/ (7 <= c < 10 /\ getComboMultiplier c = 3%Q)
  \/ (10 <= c /\ getComboMultiplier c = 5%Q).
Proof.
  unfold getComboMultiplier.
  destruct (Z.geb_spec c 10); [ right; right; right; right; split; [lia | reflexivity] | ].
  destruct (Z.geb_spec c 7); [ right; right; right; left; split; [lia | reflexivity] | ].
  destruct (Z.geb_spec c 5); [ right; right; left; split; [lia | reflexivity] | ].
  destruct (Z.geb_spec c 3); [ right; left; split; [lia | reflexivity] | ].
  left; split; [lia | reflexivity].
Qed.

(** C5.  The combo multiplier never decreases as the combo grows (for all
    integers, so for all natural-number combos), and it is exactly 1 at 0,
    1.5 at 3, 2 at 5, 3 at 7 and 5 at 10. *)
Theorem getComboMultiplier_monotone_table (c1 c2 : Z) :
  c1 <= c2 ->
  (getComboMultiplier c1 <= getComboMultiplier c2)%Q
  /\ getComboMultiplier 0 = 1%Q
  /\ getComboMultiplier 3 = (3 # 2)%Q
  /\ getComboMultiplier 5 = 2%Q
  /\ getComboMultiplier 7 = 3%Q
  /\ getComboMultiplier 10 = 5%Q.
Proof.
  intros Hle. split; [ | repeat split; reflexivity ].
  destruct (getComboMultiplier_cases c1) as [[H1 E1]|[[H1 E1]|[[H1 E1]|[[H1 E1]|[H1 E1]]]]];
  destruct (getComboMultiplier_cases c2) as [[H2 E2]|[[H2 E2]|[[H2 E2]|[[H2 E2]|[H2 E2]]]]];
  rewrite E1, E2; try lia; unfold Qle; simpl; lia.
Qed.

Lemma getComboMultiplier_monotone_table_witness :
  (getComboMultiplier 4 <= getComboMultiplier 8)%Q
  /\ getComboMultiplier 0 = 1%Q
  /\ getComboMultiplier 3 = (3 # 2)%Q
  /\ getComboMultiplier 5 = 2%Q
  /\ getComboMultiplier 7 = 3%Q
  /\ getComboMultiplier 10 = 5%Q.
Proof. apply (getComboMultiplier_monotone_table 4 8). lia. Defined.

(* ================================================================== *)
(** ** The invariant of the reachable states *)
(* ================================================================== *)

Ltac fields := cbn -[Z.mul Z.add Z.sub Z.div Z.max Qfloor].

Ltac plain_actions :=
  repeat match goal with
         | |- Forall _ (_ :: _) => apply Forall_cons; [ exact I | ]
         | |- Forall _ [] => apply Forall_nil
         end.

Lemma applyAction_good (a : Action) (s : AppState) :
  goodState s -> goodAction a -> goodState (applyAction a s).
Proof.
  intros (Hc & Hp & Ha) Hact.
  destruct a; try exact (conj Hc (conj Hp Ha)); unfold goodState; simpl.
  - auto.
  - split; [ | auto ]. intros p Hp'. subst v. exact Hact.
  - auto.
Qed.

Lemma commit_good (acts : list Action) (s : AppState) :
  goodState s -> Forall goodAction acts -> goodState (commit acts s).
Proof.
  revert s. induction acts as [ | a acts IH ]; intros s Hs Hall; simpl; [ exact Hs | ].
  inversion Hall; subst. apply IH; [ apply applyAction_good | ]; assumption.
Qed.

Lemma updateProfile_good (profile : PlayerProfile) (snap : AppState) :
  goodState snap -> goodProfile profile ->
  Forall goodAction (updateProfile profile snap).
Proof.
  intros (_ & Hp & _) Hg. unfold updateProfile, saveProfiles. simpl.
  apply Forall_cons; [ exact I | ].
  apply Forall_cons; [ | apply Forall_cons; [ exact Hg | apply Forall_nil ] ].
  simpl. clear -Hp Hg. induction Hp; simpl; constructor; auto.
  destruct (_ =? _)%string; auto.
Qed.

Lemma selectProfile_good (env : Env) (profile : PlayerProfile) (snap : AppState) :
  goodState snap -> goodProfile profile ->
  Forall goodAction (selectProfile env profile snap).
Proof.
  intros Hs Hg. unfold selectProfile.
  set (u := with_lastActiveDate _ _).
  assert (Hu : goodProfile u).
  { subst u. destruct (_ =? _)%string; [ exact Hg | ].
    destruct (negb _); exact Hg. }
  apply Forall_cons; [ exact Hu | ].
  apply Forall_app; split; [ apply updateProfile_good; assumption | ].
  plain_actions.
Qed.

Lemma createDefaultProfile_good (env : Env) (name : string) (age : Z) :
  goodProfile (createDefaultProfile env name age).
Proof. unfold goodProfile; simpl. repeat split; try lia; reflexivity. Qed.

Lemma createProfile_good (env : Env) (snap : AppState) :
  goodState snap -> Forall goodAction (createProfile env snap).
Proof.
  intros Hs. unfold createProfile.
  destruct (_ || _); [ plain_actions | ].
  destruct (parseInt env _) as [ age | ]; [ | plain_actions ].
  destruct (_ || _); [ plain_actions | ].
  apply Forall_app; split.
  - unfold saveProfiles. apply Forall_cons; [ exact I | ].
    apply Forall_cons; [ | apply Forall_nil ]. simpl.
    apply Forall_app; split; [ apply Hs | ].
    apply Forall_cons; [ apply createDefaultProfile_good | apply Forall_nil ].
  - apply Forall_app; split; [ plain_actions | ].
    apply Forall_app; split; [ | plain_actions ].
    apply selectProfile_good; [ exact Hs | apply createDefaultProfile_good ].
Qed.

Lemma level_bonus_nonneg (newXP : Z) : 0 <= newXP -> 1 <= newXP / XP_PER_LEVEL + 1.
Proof.
  intros H. unfold XP_PER_LEVEL.
  assert (0 <= newXP / 100) by (apply Z.div_pos; lia). lia.
Qed.

Lemma addXP_good (amount : Z) (snap : AppState) :
  goodState snap -> 0 <= amount -> Forall goodAction (addXP amount snap).
Proof.
  intros Hs Ham. unfold addXP.
  destruct (currentProfile snap) as [ cp | ] eqn:Hcp; [ | constructor ].
  destruct Hs as (Hc & Hrest). pose proof (Hc cp Hcp) as (H1 & H2 & H3 & H4 & H5 & H6).
  cbv zeta.
  pose proof (level_bonus_nonneg (xp cp + amount) ltac:(lia)) as Hl.
  destruct (_ >? _).
  - apply Forall_app; split; [ plain_actions | ].
    apply updateProfile_good; [ exact (conj Hc Hrest) | ].
    unfold goodProfile; fields. repeat split; try lia.
  - apply updateProfile_good; [ exact (conj Hc Hrest) | ].
    unfold goodProfile; fields. repeat split; try lia.
Qed.

Lemma getComboMultiplier_nonneg (c : Z) : (0 <= getComboMultiplier c)%Q.
Proof.
  destruct (getComboMultiplier_cases c) as [[H1 E1]|[[H1 E1]|[[H1 E1]|[[H1 E1]|[H1 E1]]]]];
    rewrite E1; unfold Qle; simpl; lia.
Qed.

Lemma reward_amount_nonneg (baseAmount combo : Z) :
  0 <= baseAmount -> 0 <= Qfloor (inject_Z baseAmount * getComboMultiplier combo).
Proof.
  intros H. change 0 with (Qfloor 0).
  apply Qfloor_resp_le. apply Qmult_le_0_compat.
  - unfold Qle; simpl; lia.
  - apply getComboMultiplier_nonneg.
Qed.

Lemma with_resource_good (type : ResourceKey) (v : Z) (p : PlayerProfile) :
  goodProfile p -> 0 <= v -> goodProfile (with_resource type v p).
Proof.
  intros (H1 & H2 & H3 & H4 & H5 & H6) Hv.
  destruct type; unfold goodProfile; fields; repeat split; assumption.
Qed.

Lemma getResource_nonneg (type : ResourceKey) (p : PlayerProfile) :
  goodProfile p -> 0 <= getResource type p.
Proof. intros (H1 & H2 & H3 & _). destruct type; assumption. Qed.

Lemma addResources_good (type : ResourceKey) (baseAmount : Z) (snap : AppState) :
  goodState snap -> 0 <= baseAmount -> Forall goodAction (addResources type baseAmount snap).
Proof.
  intros Hs Hb. unfold addResources.
  destruct (currentProfile snap) as [ cp | ] eqn:Hcp; [ | constructor ].
  pose proof (proj1 Hs cp Hcp) as Hg.
  apply Forall_app; split; [ | plain_actions ].
  apply updateProfile_good; [ exact Hs | ].
  apply with_resource_good; [ exact Hg | ].
  pose proof (getResource_nonneg type cp Hg).
  pose proof (reward_amount_nonneg baseAmount (currentCombo cp) Hb). lia.
Qed.

Lemma answerQuestion_good (index : Z) (snap : AppState) :
  goodState snap -> Forall goodAction (answerQuestion index snap).
Proof.
  intros Hs. unfold answerQuestion.
  destruct (currentQuestion snap) as [ q | ]; [ | constructor ].
  destruct (currentProfile snap) as [ cp | ] eqn:Hcp; [ | constructor ].
  destruct (isAnswered snap); [ constructor | ].
  pose proof (proj1 Hs cp Hcp) as Hg.
  cbv zeta. apply Forall_app; split; [ plain_actions | ].
  apply Forall_app; split; [ | plain_actions ].
  destruct (_ =? _).
  - apply Forall_app; split; [ plain_actions | ].
    apply Forall_app; split.
    { apply updateProfile_good; [ exact Hs | ].
      destruct Hg as (H1 & H2 & H3 & H4 & H5 & H6).
      destruct (currentMissionType snap); fields; unfold goodProfile; fields;
        repeat split; assumption. }
    repeat (apply Forall_app; split);
      try (destruct (MissionType_eqb _ _); [ apply addResources_good | constructor ];
           [ exact Hs | lia ]).
    + apply addXP_good; [ exact Hs | lia ].
    + plain_actions.
  - apply Forall_app; split; [ plain_actions | ].
    apply updateProfile_good; [ exact Hs | ].
    destruct Hg as (H1 & H2 & H3 & H4 & H5 & H6).
    unfold goodProfile; fields; repeat split; assumption.
Qed.

Lemma buyBiome_good (env : Env) (biome : BiomeShop.t) (snap : AppState) :
  goodState snap -> Forall goodAction (buyBiome env biome snap).
Proof.
  intros Hs. unfold buyBiome.
  destruct (currentProfile snap) as [ cp | ] eqn:Hcp; [ | constructor ].
  pose proof (proj1 Hs cp Hcp) as (H1 & H2 & H3 & H4 & H5 & H6).
  destruct (Z.ltb_spec (crystals cp) (BiomeShop.crystals (BiomeShop.cost biome)));
    cbn [orb]; [ plain_actions | ].
  destruct (Z.ltb_spec (solarEnergy cp) (BiomeShop.solar (BiomeShop.cost biome)));
    cbn [orb]; [ plain_actions | ].
  destruct (existsb _ _); [ plain_actions | ].
  cbv zeta. apply Forall_app; split; [ | plain_actions ].
  apply updateProfile_good; [ exact Hs | ].
  unfold goodProfile; fields. repeat split; try assumption; lia.
Qed.

Lemma buyStructure_good (env : Env) (structure : StructureShop.t) (snap : AppState) :
  goodState snap -> Forall goodAction (buyStructure env structure snap).
Proof.
  intros Hs. unfold buyStructure.
  destruct (currentProfile snap) as [ cp | ] eqn:Hcp; [ | constructor ].
  pose proof (proj1 Hs cp Hcp) as (H1 & H2 & H3 & H4 & H5 & H6).
  destruct (Z.ltb_spec (crystals cp) (StructureShop.crystals (StructureShop.cost structure)));
    cbn [orb]; [ plain_actions | ].
  destruct (Z.ltb_spec (artifacts cp)
              (StructureShop.artifacts (StructureShop.cost structure)));
    cbn [orb]; [ plain_actions | ].
  cbv zeta. apply Forall_app; split; [ | plain_actions ].
  apply updateProfile_good; [ exact Hs | ].
  unfold goodProfile; fields. repeat split; try assumption; lia.
Qed.

Lemma buyCreature_good (env : Env) (creature : CreatureShop.t) (snap : AppState) :
  goodState snap -> Forall goodAction (buyCreature env creature snap).
Proof.
  intros Hs. unfold buyCreature.
  destruct (currentProfile snap) as [ cp | ] eqn:Hcp; [ | constructor ].
  pose proof (proj1 Hs cp Hcp) as (H1 & H2 & H3 & H4 & H5 & H6).
  destruct (Z.ltb_spec (specimens cp) (CreatureShop.specimens (CreatureShop.cost creature)));
    [ plain_actions | ].
  cbv zeta. apply Forall_app; split; [ | plain_actions ].
  apply updateProfile_good; [ exact Hs | ].
  unfold goodProfile; fields. repeat split; try assumption; lia.
Qed.

(** Every activity type has its own name and a positive rate, so the rate
    found by name is the rate of the type found by id. *)
Lemma activity_found_rate (selected : string) (t : Activity.t) :
  find (fun a => (Activity.id a =? selected)%string) ACTIVITIES = Some t ->
  find (fun a => (Activity.name a =? Activity.name t)%string) ACTIVITIES = Some t
  /\ 0 < Activity.solarPerMin t.
Proof.
  unfold ACTIVITIES. cbn [find Activity.id].
  repeat (destruct (_ =? selected)%string;
          [ intros E; injection E as <-; split; [ reflexivity | reflexivity ] | ]).
  discriminate.
Qed.

Lemma submitActivity_good (env : Env) (snap : AppState) :
  goodState snap -> Forall goodAction (submitActivity env snap).
Proof.
  intros Hs. unfold submitActivity.
  destruct (selectedActivity snap) as [ selected | ]; [ | constructor ].
  destruct (currentProfile snap) as [ cp | ]; [ | constructor ].
  destruct (_ || _); [ constructor | ].
  destruct (parseInt env _) as [ minutes | ]; [ | plain_actions ].
  destruct (Z.leb_spec minutes 0); cbn [orb]; [ plain_actions | ].
  destruct (Z.gtb_spec minutes 180); cbn [orb]; [ plain_actions | ].
  destruct (find _ ACTIVITIES) as [ t | ] eqn:Hfind; [ | constructor ].
  destruct (activity_found_rate _ _ Hfind) as (Hname & Hrate).
  cbv zeta. apply Forall_app; split; [ | plain_actions ].
  unfold savePendingActivities.
  apply Forall_cons; [ exact I | ]. apply Forall_cons; [ | apply Forall_nil ].
  cbn [goodAction]. apply Forall_app; split; [ apply Hs | ].
  apply Forall_cons; [ | apply Forall_nil ].
  exists (Activity.solarPerMin t). unfold activityRate. cbn [PendingActivity.name
    PendingActivity.minutes PendingActivity.solarEnergy].
  rewrite Hname. cbn [option_map]. repeat split; try assumption; lia.
Qed.

Lemma filter_Forall {A} (P : A -> Prop) (f : A -> bool) (l : list A) :
  Forall P l -> Forall P (filter f l).
Proof.
  intros H. apply Forall_forall. intros x Hx. apply filter_In in Hx.
  rewrite Forall_forall in H. apply H, Hx.
Qed.

Lemma submitted_reward_nonneg (a : PendingActivity.t) :
  submitted a -> 0 <= PendingActivity.solarEnergy a.
Proof. intros (rate & _ & Hr & Hm & ->). nia. Qed.

Lemma verifyActivity_good (activityId : string) (snap : AppState) :
  goodState snap -> Forall goodAction (verifyActivity activityId snap).
Proof.
  intros Hs. unfold verifyActivity.
  destruct (find _ (pendingActivities snap)) as [ activity | ] eqn:Hfind; [ | constructor ].
  destruct (currentProfile snap) as [ cp | ] eqn:Hcp; [ | constructor ].
  pose proof (proj1 Hs cp Hcp) as (H1 & H2 & H3 & H4 & H5 & H6).
  apply find_some in Hfind. destruct Hfind as (Hin & _).
  destruct Hs as (Hc & Hp & Ha).
  pose proof (proj1 (Forall_forall _ _) Ha _ Hin) as Hsub.
  apply submitted_reward_nonneg in Hsub.
  cbv zeta. apply Forall_app; split; [ | apply Forall_app; split; [ | plain_actions ] ].
  - apply updateProfile_good; [ exact (conj Hc (conj Hp Ha)) | ].
    unfold goodProfile; fields. repeat split; try assumption; lia.
  - unfold savePendingActivities.
    apply Forall_cons; [ exact I | ]. apply Forall_cons; [ | apply Forall_nil ].
    cbn [goodAction]. apply filter_Forall, Ha.
Qed.

Lemma rejectActivity_good (activityId : string) (snap : AppState) :
  goodState snap -> Forall goodAction (rejectActivity activityId snap).
Proof.
  intros (_ & _ & Ha). unfold rejectActivity, savePendingActivities.
  apply Forall_cons; [ exact I | ]. apply Forall_cons; [ | apply Forall_nil ].
  cbn [goodAction]. apply filter_Forall, Ha.
Qed.

Lemma generateQuestion_good (fuel : nat) (env : Env) (type : MissionType)
  (snap : AppState) (acts : list Action) :
  generateQuestion fuel env type snap = Some acts -> Forall goodAction acts.
Proof.
  unfold generateQuestion.
  destruct (match type with maths => _ | english => _ | science => _ end);
    [ | discriminate ].
  intros E; injection E as <-. plain_actions.
Qed.

Lemma startMission_good (fuel : nat) (env : Env) (type : MissionType)
  (snap : AppState) (acts : list Action) :
  goodState snap -> startMission fuel env type snap = Some acts -> Forall goodAction acts.
Proof.
  intros Hs. unfold startMission.
  destruct (generateQuestion fuel env type snap) as [ shown | ] eqn:Hq; [ | discriminate ].
  intros E; injection E as <-.
  change (Forall goodAction
            ([ setCurrentMissionType type; setSessionCorrect (fun _ => 0);
               setSessionTotal (fun _ => 0) ]
             ++ match currentProfile snap with
                | Some cp => updateProfile (with_currentCombo 0 cp) snap
                | None => []
                end ++ shown ++ [ setScreen Screen_mission_play ])).
  apply Forall_app; split; [ plain_actions | ].
  apply Forall_app; split.
  - destruct (currentProfile snap) as [ cp | ] eqn:Hcp; [ | constructor ].
    apply updateProfile_good; [ exact Hs | ].
    pose proof (proj1 Hs cp Hcp) as (H1 & H2 & H3 & H4 & H5 & H6).
    unfold goodProfile; fields. repeat split; assumption.
  - apply Forall_app; split; [ | plain_actions ].
    eapply generateQuestion_good, Hq.
Qed.

Lemma handle_good (fuel : nat) (env : Env) (ev : Event) (s : AppState)
  (acts : list Action) :
  goodState s -> offered ev s -> handle fuel env ev s = Some acts ->
  Forall goodAction acts.
Proof.
  intros Hs Hoff.
  destruct ev; cbn [handle];
    try (intros E; injection E as <-; plain_actions; fail).
  - intros E; injection E as <-. apply createProfile_good, Hs.
  - intros E; injection E as <-. apply selectProfile_good; [ exact Hs | ].
    cbn [offered] in Hoff. destruct Hs as (_ & Hp & _).
    rewrite Forall_forall in Hp. apply Hp, Hoff.
  - apply startMission_good, Hs.
  - apply generateQuestion_good.
  - intros E; injection E as <-. apply answerQuestion_good, Hs.
  - intros E; injection E as <-. apply buyBiome_good, Hs.
  - intros E; injection E as <-. apply buyStructure_good, Hs.
  - intros E; injection E as <-. apply buyCreature_good, Hs.
  - intros E; injection E as <-. apply submitActivity_good, Hs.
  - intros E; injection E as <-. apply verifyActivity_good, Hs.
  - intros E; injection E as <-. apply rejectActivity_good, Hs.
Qed.

Lemma initialState_good : goodState initialState.
Proof. split; [ intros p Hp; discriminate Hp | split; constructor ]. Qed.

Lemma step_good (s s' : AppState) : goodState s -> step s s' -> goodState s'.
Proof.
  intros Hs Hstep. destruct Hstep as [ fuel env ev acts Hoff Hh | ].
  - apply commit_good; [ exact Hs | ]. eapply handle_good; eassumption.
  - unfold restart. apply commit_good; [ apply initialState_good | ].
    destruct Hs as (_ & Hp & Ha).
    apply Forall_cons; [ exact Hp | ]. apply Forall_cons; [ exact Ha | apply Forall_nil ].
Qed.

Lemma reachable_good (s : AppState) : reachable s -> goodState s.
Proof.
  induction 1 as [ | s s' _ IH Hstep ].
  - apply initialState_good.
  - eapply step_good; eassumption.
Qed.

(* ================================================================== *)
(** ** Answering a question *)
(* ================================================================== *)

(** Of the three profile writes of a correct answer ([answerQuestion]'s own,
    [addResources]' and [addXP]'s), each computed from the rendered profile,
    the last one is what the next render shows. *)
Lemma answerQuestion_correct_profile (s : AppState) (cp : PlayerProfile)
  (q : Question.t) :
  currentProfile s = Some cp -> currentQuestion s = Some q -> isAnswered s = false ->
  currentProfile (run (answerQuestion (Question.correctIndex q)) s)
  = currentProfile (run (addXP 10) s).
Proof.
  intros Hcp Hq Ha. unfold run, answerQuestion, addResources, addXP.
  rewrite Hcp, Hq, Ha, Z.eqb_refl. cbv zeta.
  destruct (currentMissionType s); cbn [MissionType_eqb];
    destruct (_ >? _); reflexivity.
Qed.

Lemma answerQuestion_wrong_profile (s : AppState) (cp : PlayerProfile)
  (q : Question.t) (index : Z) :
  currentProfile s = Some cp -> currentQuestion s = Some q -> isAnswered s = false ->
  index <> Question.correctIndex q ->
  currentProfile (run (answerQuestion index) s) = Some (with_currentCombo 0 cp).
Proof.
  intros Hcp Hq Ha Hne. unfold run, answerQuestion.
  rewrite Hcp, Hq, Ha. apply Z.eqb_neq in Hne. rewrite Hne. reflexivity.
Qed.

Lemma afterEvent_reachable (fuel : nat) (env : Env) (ev : Event) (s : AppState) :
  reachable s -> offered ev s -> handle fuel env ev s <> None ->
  reachable (afterEvent fuel env ev s).
Proof.
  intros Hs Hoff Hsome. unfold afterEvent.
  destruct (handle fuel env ev s) as [ acts | ] eqn:Hh; [ | congruence ].
  eapply reachable_step; [ exact Hs | ].
  eapply step_event; eassumption.
Qed.

Lemma sessionCreated_reachable : reachable sessionCreated.
Proof.
  unfold sessionCreated.
  repeat (apply afterEvent_reachable; [ | exact I | discriminate ]).
  apply reachable_init.
Qed.

Lemma sessionPlaying_reachable : reachable sessionPlaying.
Proof.
  unfold sessionPlaying.
  apply afterEvent_reachable; [ apply sessionCreated_reachable | exact I | ].
  vm_compute. discriminate.
Qed.

(** C1, at a state of the sample session: the maths question shown has its
    correct option at index 2; answering with it leaves the combo counter at 0
    and the crystals at 50 although the reward popup announces 10 crystals;
    only the XP grant of the answer is kept. *)
Theorem answerQuestion_correct_keeps_only_xp :
  reachable sessionPlaying
  /\ currentMissionType sessionPlaying = maths
  /\ isAnswered sessionPlaying = false
  /\ option_map Question.correctIndex (currentQuestion sessionPlaying) = Some 2
  /\ option_map currentCombo (currentProfile sessionPlaying) = Some 0
  /\ option_map crystals (currentProfile sessionPlaying) = Some 50
  /\ let s' := run (answerQuestion 2) sessionPlaying in
     option_map currentCombo (currentProfile s') = Some 0
     /\ option_map crystals (currentProfile s') = Some 50
     /\ option_map xp (currentProfile s') = Some 10
     /\ showReward s' = Some (Rcrystals, 10).
Proof.
  split; [ apply sessionPlaying_reachable | ].
  vm_compute. repeat split; reflexivity.
Qed.

(* ================================================================== *)
(** ** XP and level *)
(* ================================================================== *)

Lemma addXP_run (s : AppState) (cp : PlayerProfile) (amount : Z) :
  currentProfile s = Some cp ->
  let newXP := xp cp + amount in
  let newLevel := newXP / XP_PER_LEVEL + 1 in
  let updated := with_level newLevel (with_xp newXP cp) in
  currentProfile (run (addXP amount) s) =
    Some (if newLevel >? level cp
          then with_solarEnergy (solarEnergy cp + 10 * newLevel)
                 (with_crystals (crystals cp + 25 * newLevel) updated)
          else updated).
Proof.
  intros H. unfold run, addXP. rewrite H. cbv zeta.
  destruct (_ >? _); reflexivity.
Qed.

Lemma addXP_effect (s : AppState) (cp : PlayerProfile) (amount : Z) :
  currentProfile s = Some cp ->
  exists cp',
    currentProfile (run (addXP amount) s) = Some cp'
    /\ xp cp' = xp cp + amount
    /\ level cp' = xp cp' / XP_PER_LEVEL + 1
    /\ artifacts cp' = artifacts cp
    /\ specimens cp' = specimens cp
    /\ currentCombo cp' = currentCombo cp
    /\ (level cp' > level cp ->
        crystals cp' = crystals cp + 25 * level cp'
        /\ solarEnergy cp' = solarEnergy cp + 10 * level cp')
    /\ (level cp' <= level cp ->
        crystals cp' = crystals cp /\ solarEnergy cp' = solarEnergy cp).
Proof.
  intros Hcp. rewrite (addXP_run s cp amount Hcp). cbv zeta.
  destruct (Z.gtb_spec ((xp cp + amount) / XP_PER_LEVEL + 1) (level cp)) as [ Hup | Hsame ];
    eexists; (split; [ reflexivity | ]); fields;
    repeat split; try reflexivity; intros; try lia.
Qed.

(** C2.  A new profile has XP 0 and level 1; [addXP] recomputes the level
    from the new XP total, so after it, and after a correct answer (the
    operation that grants XP), the level is floor(xp / 100) + 1; and this
    holds of the current profile of every reachable state. *)
Theorem level_is_floor_xp_plus_one (s : AppState) (cp : PlayerProfile) :
  currentProfile s = Some cp ->
  (forall env name age,
      xp (createDefaultProfile env name age) = 0
      /\ level (createDefaultProfile env name age) = 1)
  /\ (forall amount, exists cp',
        currentProfile (run (addXP amount) s) = Some cp'
        /\ xp cp' = xp cp + amount
        /\ level cp' = xp cp' / 100 + 1)
  /\ (forall q, currentQuestion s = Some q -> isAnswered s = false ->
        exists cp',
          currentProfile (run (answerQuestion (Question.correctIndex q)) s) = Some cp'
          /\ level cp' = xp cp' / 100 + 1)
  /\ (reachable s -> level cp = xp cp / 100 + 1).
Proof.
  intros Hcp. split; [ | split; [ | split ] ].
  - intros env name age. split; reflexivity.
  - intros amount.
    destruct (addXP_effect s cp amount Hcp) as (cp' & H1 & H2 & H3 & _).
    exists cp'. auto.
  - intros q Hq Ha. rewrite (answerQuestion_correct_profile s cp q Hcp Hq Ha).
    destruct (addXP_effect s cp 10 Hcp) as (cp' & H1 & H2 & H3 & _).
    exists cp'. auto.
  - intros Hr. apply reachable_good in Hr. apply (proj1 Hr cp Hcp).
Qed.

Lemma level_is_floor_xp_plus_one_witness :
  (forall env name age,
      xp (createDefaultProfile env name age) = 0
      /\ level (createDefaultProfile env name age) = 1)
  /\ (forall amount, exists cp',
        currentProfile (run (addXP amount) sessionPlaying) = Some cp'
        /\ xp cp' = xp sampleProfile + amount
        /\ level cp' = xp cp' / 100 + 1)
  /\ (forall q, currentQuestion sessionPlaying = Some q ->
        isAnswered sessionPlaying = false ->
        exists cp',
          currentProfile (run (answerQuestion (Question.correctIndex q)) sessionPlaying)
          = Some cp'
          /\ level cp' = xp cp' / 100 + 1)
  /\ (reachable sessionPlaying -> level sampleProfile = xp sampleProfile / 100 + 1).
Proof. apply (level_is_floor_xp_plus_one sessionPlaying sampleProfile). reflexivity. Defined.

(* ================================================================== *)
(** ** Resources are never negative *)
(* ================================================================== *)

(** C4.  In every state the app reaches from its first start (profiles
    created, questions answered, items bought, activities logged, approved
    and rejected, levels gained), the four resource counters of the current
    profile and of every listed profile are non-negative. *)
Theorem resources_never_negative (s : AppState) (p : PlayerProfile) :
  reachable s ->
  currentProfile s = Some p \/ In p (profiles s) ->
  0 <= crystals p /\ 0 <= artifacts p /\ 0 <= specimens p /\ 0 <= solarEnergy p.
Proof.
  intros Hr Hp. apply reachable_good in Hr. destruct Hr as (Hc & Hl & _).
  assert (Hg : goodProfile p).
  { destruct Hp as [ Hp | Hp ]; [ apply Hc, Hp | ].
    rewrite Forall_forall in Hl. apply Hl, Hp. }
  destruct Hg as (H1 & H2 & H3 & H4 & _). auto.
Qed.

Lemma resources_never_negative_witness :
  0 <= crystals sampleProfile /\ 0 <= artifacts sampleProfile
  /\ 0 <= specimens sampleProfile /\ 0 <= solarEnergy sampleProfile.
Proof.
  apply (resources_never_negative sessionPlaying sampleProfile).
  - apply sessionPlaying_reachable.
  - left. reflexivity.
Defined.

(* ================================================================== *)
(** ** XP grant and level-up bonus *)
(* ================================================================== *)

(** C9.  A correct answer grants 10 XP whatever the mission type; an XP grant
    that raises the level credits 25 x newLevel crystals and 10 x newLevel
    solar energy, and one that does not raise it credits nothing. *)
Theorem xp_grant_and_level_bonus (s : AppState) (cp : PlayerProfile) :
  currentProfile s = Some cp ->
  (forall q, currentQuestion s = Some q -> isAnswered s = false ->
     exists cp',
       currentProfile (run (answerQuestion (Question.correctIndex q)) s) = Some cp'
       /\ xp cp' = xp cp + 10)
  /\ (forall amount,
        let newLevel := (xp cp + amount) / 100 + 1 in
        exists cp',
          currentProfile (run (addXP amount) s) = Some cp'
          /\ xp cp' = xp cp + amount
          /\ level cp' = newLevel
          /\ artifacts cp' = artifacts cp
          /\ specimens cp' = specimens cp
          /\ (newLevel > level cp ->
              crystals cp' = crystals cp + 25 * newLevel
              /\ solarEnergy cp' = solarEnergy cp + 10 * newLevel)
          /\ (newLevel <= level cp ->
              crystals cp' = crystals cp /\ solarEnergy cp' = solarEnergy cp)).
Proof.
  intros Hcp. split.
  - intros q Hq Ha. rewrite (answerQuestion_correct_profile s cp q Hcp Hq Ha).
    destruct (addXP_effect s cp 10 Hcp) as (cp' & H1 & H2 & _).
    exists cp'. auto.
  - intros amount newLevel.
    destruct (addXP_effect s cp amount Hcp)
      as (cp' & H1 & H2 & H3 & H4 & H5 & _ & H7 & H8).
    assert (Hl : level cp' = newLevel) by (subst newLevel; rewrite H3, H2; reflexivity).
    exists cp'. rewrite <- Hl. repeat split; auto; try apply H7; try apply H8; assumption.
Qed.

Lemma xp_grant_and_level_bonus_witness :
  (forall q, currentQuestion sessionPlaying = Some q ->
     isAnswered sessionPlaying = false ->
     exists cp',
       currentProfile (run (answerQuestion (Question.correctIndex q)) sessionPlaying)
       = Some cp'
       /\ xp cp' = xp sampleProfile + 10)
  /\ (forall amount,
        let newLevel := (xp sampleProfile + amount) / 100 + 1 in
        exists cp',
          currentProfile (run (addXP amount) sessionPlaying) = Some cp'
          /\ xp cp' = xp sampleProfile + amount
          /\ level cp' = newLevel
          /\ artifacts cp' = artifacts sampleProfile
          /\ specimens cp' = specimens sampleProfile
          /\ (newLevel > level sampleProfile ->
              crystals cp' = crystals sampleProfile + 25 * newLevel
              /\ solarEnergy cp' = solarEnergy sampleProfile + 10 * newLevel)
          /\ (newLevel <= level sampleProfile ->
              crystals cp' = crystals sampleProfile
              /\ solarEnergy cp' = solarEnergy sampleProfile)).
Proof. apply (xp_grant_and_level_bonus sessionPlaying sampleProfile). reflexivity. Defined.

(* ================================================================== *)
(** ** Reward amounts *)
(* ================================================================== *)

Lemma addResources_run (type : ResourceKey) (baseAmount : Z) (s : AppState)
  (cp : PlayerProfile) :
  currentProfile s = Some cp ->
  let amount := Qfloor (inject_Z baseAmount * getComboMultiplier (currentCombo cp)) in
  currentProfile (run (addResources type baseAmount) s)
  = Some (with_resource type (getResource type cp + amount) cp)
  /\ showReward (run (addResources type baseAmount) s) = Some (type, amount).
Proof. intros Hcp. unfold run, addResources. rewrite Hcp. split; reflexivity. Qed.

(** C10.  The amount [addResources] credits is the integer floor of
    baseAmount x multiplier: it is the integer [amount] with
    amount <= baseAmount x multiplier < amount + 1, it is not negative when
    the base amount is not, it is what is added to the counter named by the
    key and what the reward popup shows, and it is 7 for the base amount 5
    under the multiplier 1.5. *)
Theorem reward_is_floor_of_base_times_multiplier (type : ResourceKey) (baseAmount : Z)
  (s : AppState) (cp : PlayerProfile) :
  currentProfile s = Some cp -> 0 <= baseAmount ->
  exists amount cp',
    (inject_Z amount <= inject_Z baseAmount * getComboMultiplier (currentCombo cp))%Q
    /\ (inject_Z baseAmount * getComboMultiplier (currentCombo cp) < inject_Z (amount + 1))%Q
    /\ 0 <= amount
    /\ currentProfile (run (addResources type baseAmount) s) = Some cp'
    /\ getResource type cp' = getResource type cp + amount
    /\ showReward (run (addResources type baseAmount) s) = Some (type, amount)
    /\ (getComboMultiplier (currentCombo cp) = (3 # 2)%Q -> baseAmount = 5 -> amount = 7).
Proof.
  intros Hcp Hb.
  destruct (addResources_run type baseAmount s cp Hcp) as (Hp & Hr).
  eexists; eexists.
  split; [ apply Qfloor_le | ].
  split; [ apply Qlt_floor | ].
  split; [ apply reward_amount_nonneg, Hb | ].
  split; [ exact Hp | ].
  split; [ destruct type; reflexivity | ].
  split; [ exact Hr | ].
  intros Hm ->. rewrite Hm. reflexivity.
Qed.

Lemma reward_is_floor_of_base_times_multiplier_witness :
  exists amount cp',
    (inject_Z amount <= inject_Z 5 * getComboMultiplier 3)%Q
    /\ (inject_Z 5 * getComboMultiplier 3 < inject_Z (amount + 1))%Q
    /\ 0 <= amount
    /\ currentProfile
         (run (addResources Rartifacts 5) (withProfile (with_currentCombo 3 sampleProfile)))
       = Some cp'
    /\ getResource Rartifacts cp' = 10 + amount
    /\ showReward
         (run (addResources Rartifacts 5) (withProfile (with_currentCombo 3 sampleProfile)))
       = Some (Rartifacts, amount)
    /\ (getComboMultiplier 3 = (3 # 2)%Q -> 5 = 5 -> amount = 7).
Proof.
  apply (reward_is_floor_of_base_times_multiplier Rartifacts 5
           (withProfile (with_currentCombo 3 sampleProfile))
           (with_currentCombo 3 sampleProfile)).
  - reflexivity.
  - lia.
Defined.

(* ================================================================== *)
(** ** Purchases *)
(* ================================================================== *)

Lemma BiomeType_eqb_eq (a b : BiomeType) : BiomeType_eqb a b = true <-> a = b.
Proof. destruct a, b; simpl; split; intros H; try reflexivity; discriminate H. Qed.

Lemma owned_biome_spec (t : BiomeType) (l : list BiomeType) :
  existsb (BiomeType_eqb t) l = true <-> In t l.
Proof.
  rewrite existsb_exists. split.
  - intros (x & Hin & Heq). apply BiomeType_eqb_eq in Heq. subst x. exact Hin.
  - intros Hin. exists t. split; [ exact Hin | apply BiomeType_eqb_eq; reflexivity ].
Qed.

Lemma buyBiome_insufficient (env : Env) (biome : BiomeShop.t) (s : AppState)
  (cp : PlayerProfile) :
  currentProfile s = Some cp ->
  crystals cp < BiomeShop.crystals (BiomeShop.cost biome)
  \/ solarEnergy cp < BiomeShop.solar (BiomeShop.cost biome) ->
  buyBiome env biome s
  = [ Alert_alert "Not enough resources!" "Complete more missions and outdoor activities." ].
Proof.
  intros Hcp Hlow. unfold buyBiome. rewrite Hcp.
  destruct (Z.ltb_spec (crystals cp) (BiomeShop.crystals (BiomeShop.cost biome)));
    cbn [orb]; [ reflexivity | ].
  destruct (Z.ltb_spec (solarEnergy cp) (BiomeShop.solar (BiomeShop.cost biome)));
    [ reflexivity | lia ].
Qed.

Lemma buyBiome_owned (env : Env) (biome : BiomeShop.t) (s : AppState)
  (cp : PlayerProfile) :
  currentProfile s = Some cp ->
  In (BiomeShop.type biome) (unlockedBiomes cp) ->
  exists title message, buyBiome env biome s = [ Alert_alert title message ].
Proof.
  intros Hcp Hown. unfold buyBiome. rewrite Hcp.
  destruct (_ || _); [ eexists; eexists; reflexivity | ].
  apply owned_biome_spec in Hown. rewrite Hown. eexists; eexists; reflexivity.
Qed.

Lemma buyBiome_new (env : Env) (biome : BiomeShop.t) (s : AppState)
  (cp : PlayerProfile) :
  currentProfile s = Some cp ->
  BiomeShop.crystals (BiomeShop.cost biome) <= crystals cp ->
  BiomeShop.solar (BiomeShop.cost biome) <= solarEnergy cp ->
  ~ In (BiomeShop.type biome) (unlockedBiomes cp) ->
  exists cp' item,
    currentProfile (run (buyBiome env biome) s) = Some cp'
    /\ crystals cp' = crystals cp - BiomeShop.crystals (BiomeShop.cost biome)
    /\ solarEnergy cp' = solarEnergy cp - BiomeShop.solar (BiomeShop.cost biome)
    /\ artifacts cp' = artifacts cp
    /\ specimens cp' = specimens cp
    /\ planetItems cp' = planetItems cp ++ [ item ]
    /\ PlanetItem.type item = Kind_biome
    /\ PlanetItem.itemType item = OfBiome (BiomeShop.type biome)
    /\ unlockedBiomes cp' = unlockedBiomes cp ++ [ BiomeShop.type biome ].
Proof.
  intros Hcp Hc Hs Hnew. unfold run, buyBiome. rewrite Hcp.
  destruct (Z.ltb_spec (crystals cp) (BiomeShop.crystals (BiomeShop.cost biome)));
    [ lia | ].
  destruct (Z.ltb_spec (solarEnergy cp) (BiomeShop.solar (BiomeShop.cost biome)));
    [ lia | ].
  cbn [orb].
  destruct (existsb _ _) eqn:Hown; [ apply owned_biome_spec in Hown; contradiction | ].
  eexists; eexists. split; [ reflexivity | ]. repeat split.
Qed.

Lemma buyStructure_insufficient (env : Env) (structure : StructureShop.t) (s : AppState)
  (cp : PlayerProfile) :
  currentProfile s = Some cp ->
  crystals cp < StructureShop.crystals (StructureShop.cost structure)
  \/ artifacts cp < StructureShop.artifacts (StructureShop.cost structure) ->
  buyStructure env structure s
  = [ Alert_alert "Not enough resources!"
        "Complete more missions to earn crystals and artifacts." ].
Proof.
  intros Hcp Hlow. unfold buyStructure. rewrite Hcp.
  destruct (Z.ltb_spec (crystals cp) (StructureShop.crystals (StructureShop.cost structure)));
    cbn [orb]; [ reflexivity | ].
  destruct (Z.ltb_spec (artifacts cp)
              (StructureShop.artifacts (StructureShop.cost structure)));
    [ reflexivity | lia ].
Qed.

Lemma buyStructure_affordable (env : Env) (structure : StructureShop.t) (s : AppState)
  (cp : PlayerProfile) :
  currentProfile s = Some cp ->
  StructureShop.crystals (StructureShop.cost structure) <= crystals cp ->
  StructureShop.artifacts (StructureShop.cost structure) <= artifacts cp ->
  exists cp' item,
    currentProfile (run (buyStructure env structure) s) = Some cp'
    /\ crystals cp' = crystals cp - StructureShop.crystals (StructureShop.cost structure)
    /\ artifacts cp' = artifacts cp - StructureShop.artifacts (StructureShop.cost structure)
    /\ specimens cp' = specimens cp
    /\ solarEnergy cp' = solarEnergy cp
    /\ planetItems cp' = planetItems cp ++ [ item ]
    /\ PlanetItem.type item = Kind_structure
    /\ PlanetItem.itemType item = OfStructure (StructureShop.type structure)
    /\ unlockedStructures cp' = unlockedStructures cp ++ [ StructureShop.type structure ]
    /\ alerts (buyStructure env structure s)
       = [ ("Structure Built!",
            (StructureShop.name structure ++ " has been added to your planet!")%string) ].
Proof.
  intros Hcp Hc Ha. unfold run, buyStructure. rewrite Hcp.
  destruct (Z.ltb_spec (crystals cp) (StructureShop.crystals (StructureShop.cost structure)));
    [ lia | ].
  destruct (Z.ltb_spec (artifacts cp)
              (StructureShop.artifacts (StructureShop.cost structure)));
    [ lia | ].
  cbn [orb]. eexists; eexists. split; [ reflexivity | ]. repeat split.
Qed.

Lemma buyCreature_insufficient (env : Env) (creature : CreatureShop.t) (s : AppState)
  (cp : PlayerProfile) :
  currentProfile s = Some cp ->
  specimens cp < CreatureShop.specimens (CreatureShop.cost creature) ->
  buyCreature env creature s
  = [ Alert_alert "Not enough specimens!" "Complete more science missions." ].
Proof.
  intros Hcp Hlow. unfold buyCreature. rewrite Hcp.
  destruct (Z.ltb_spec (specimens cp) (CreatureShop.specimens (CreatureShop.cost creature)));
    [ reflexivity | lia ].
Qed.

Lemma buyCreature_affordable (env : Env) (creature : CreatureShop.t) (s : AppState)
  (cp : PlayerProfile) :
  currentProfile s = Some cp ->
  CreatureShop.specimens (CreatureShop.cost creature) <= specimens cp ->
  exists cp' item,
    currentProfile (run (buyCreature env creature) s) = Some cp'
    /\ specimens cp' = specimens cp - CreatureShop.specimens (CreatureShop.cost creature)
    /\ crystals cp' = crystals cp
    /\ artifacts cp' = artifacts cp
    /\ solarEnergy cp' = solarEnergy cp
    /\ planetItems cp' = planetItems cp ++ [ item ]
    /\ PlanetItem.type item = Kind_creature
    /\ PlanetItem.itemType item = OfCreature (CreatureShop.type creature)
    /\ unlockedCreatures cp' = unlockedCreatures cp ++ [ CreatureShop.type creature ]
    /\ alerts (buyCreature env creature s)
       = [ ("Creature Added!",
            (CreatureShop.name creature ++ " now lives on your planet!")%string) ].
Proof.
  intros Hcp Hc. unfold run, buyCreature. rewrite Hcp.
  destruct (Z.ltb_spec (specimens cp) (CreatureShop.specimens (CreatureShop.cost creature)));
    [ lia | ].
  eexists; eexists. split; [ reflexivity | ]. repeat split.
Qed.

(** A handler that only shows an alert leaves the state as it is. *)
Lemma alert_only_run (h : Handler) (s : AppState) (title message : string) :
  h s = [ Alert_alert title message ] -> run h s = s.
Proof. intros H. unfold run. rewrite H. reflexivity. Qed.

(** C3 as stated fails: the grassland biome costs nothing, so the new profile
    of the sample session can afford it, yet buying it debits nothing and
    appends no planet item, because the profile already owns it. *)
Lemma purchase_affordable_owned_biome_counterexample :
  ~ (BiomeShop.crystals (BiomeShop.cost grassItem) <= crystals sampleProfile ->
     BiomeShop.solar (BiomeShop.cost grassItem) <= solarEnergy sampleProfile ->
     exists cp' item,
       currentProfile (run (buyBiome env0 grassItem) sessionCreated) = Some cp'
       /\ planetItems cp' = planetItems sampleProfile ++ [ item ]).
Proof.
  intros H. destruct H as (cp' & item & Hcp' & Hitems).
  - vm_compute. discriminate.
  - vm_compute. discriminate.
  - vm_compute in Hcp'. injection Hcp' as <-. vm_compute in Hitems. discriminate Hitems.
Qed.

(** C3, amended.  When a required counter is below the cost, each purchase
    handler only shows its error alert and the state stays as it is.
    Otherwise a structure or a creature is bought: the listed costs are
    debited, nothing else changes in the counters, and one planet item is
    appended.  A biome is bought in that way when, in addition, its type is
    not yet in [unlockedBiomes]. *)
Theorem purchase_checks_then_debits (env : Env) (s : AppState) (cp : PlayerProfile) :
  currentProfile s = Some cp ->
  (forall biome : BiomeShop.t,
      (crystals cp < BiomeShop.crystals (BiomeShop.cost biome)
       \/ solarEnergy cp < BiomeShop.solar (BiomeShop.cost biome) ->
       buyBiome env biome s
       = [ Alert_alert "Not enough resources!"
             "Complete more missions and outdoor activities." ]
       /\ run (buyBiome env biome) s = s)
      /\ (BiomeShop.crystals (BiomeShop.cost biome) <= crystals cp ->
          BiomeShop.solar (BiomeShop.cost biome) <= solarEnergy cp ->
          ~ In (BiomeShop.type biome) (unlockedBiomes cp) ->
          exists cp' item,
            currentProfile (run (buyBiome env biome) s) = Some cp'
            /\ crystals cp' = crystals cp - BiomeShop.crystals (BiomeShop.cost biome)
            /\ solarEnergy cp' = solarEnergy cp - BiomeShop.solar (BiomeShop.cost biome)
            /\ artifacts cp' = artifacts cp
            /\ specimens cp' = specimens cp
            /\ planetItems cp' = planetItems cp ++ [ item ]
            /\ PlanetItem.itemType item = OfBiome (BiomeShop.type biome)))
  /\ (forall structure : StructureShop.t,
        (crystals cp < StructureShop.crystals (StructureShop.cost structure)
         \/ artifacts cp < StructureShop.artifacts (StructureShop.cost structure) ->
         buyStructure env structure s
         = [ Alert_alert "Not enough resources!"
               "Complete more missions to earn crystals and artifacts." ]
         /\ run (buyStructure env structure) s = s)
        /\ (StructureShop.crystals (StructureShop.cost structure) <= crystals cp ->
            StructureShop.artifacts (StructureShop.cost structure) <= artifacts cp ->
            exists cp' item,
              currentProfile (run (buyStructure env structure) s) = Some cp'
              /\ crystals cp'
                 = crystals cp - StructureShop.crystals (StructureShop.cost structure)
              /\ artifacts cp'
                 = artifacts cp - StructureShop.artifacts (StructureShop.cost structure)
              /\ specimens cp' = specimens cp
              /\ solarEnergy cp' = solarEnergy cp
              /\ planetItems cp' = planetItems cp ++ [ item ]
              /\ PlanetItem.itemType item = OfStructure (StructureShop.type structure)))
  /\ (forall creature : CreatureShop.t,
        (specimens cp < CreatureShop.specimens (CreatureShop.cost creature) ->
         buyCreature env creature s
         = [ Alert_alert "Not enough specimens!" "Complete more science missions." ]
         /\ run (buyCreature env creature) s = s)
        /\ (CreatureShop.specimens (CreatureShop.cost creature) <= specimens cp ->
            exists cp' item,
              currentProfile (run (buyCreature env creature) s) = Some cp'
              /\ specimens cp'
                 = specimens cp - CreatureShop.specimens (CreatureShop.cost creature)
              /\ crystals cp' = crystals cp
              /\ artifacts cp' = artifacts cp
              /\ solarEnergy cp' = solarEnergy cp
              /\ planetItems cp' = planetItems cp ++ [ item ]
              /\ PlanetItem.itemType item = OfCreature (CreatureShop.type creature))).
Proof.
  intros Hcp. split; [ | split ].
  - intros biome. split.
    + intros Hlow. pose proof (buyBiome_insufficient env biome s cp Hcp Hlow) as E.
      split; [ exact E | eapply alert_only_run, E ].
    + intros Hc Hs Hnew.
      destruct (buyBiome_new env biome s cp Hcp Hc Hs Hnew)
        as (cp' & item & H1 & H2 & H3 & H4 & H5 & H6 & _ & H8 & _).
      exists cp', item. auto 10.
  - intros structure. split.
    + intros Hlow. pose proof (buyStructure_insufficient env structure s cp Hcp Hlow) as E.
      split; [ exact E | eapply alert_only_run, E ].
    + intros Hc Ha.
      destruct (buyStructure_affordable env structure s cp Hcp Hc Ha)
        as (cp' & item & H1 & H2 & H3 & H4 & H5 & H6 & _ & H8 & _).
      exists cp', item. auto 10.
  - intros creature. split.
    + intros Hlow. pose proof (buyCreature_insufficient env creature s cp Hcp Hlow) as E.
      split; [ exact E | eapply alert_only_run, E ].
    + intros Hc.
      destruct (buyCreature_affordable env creature s cp Hcp Hc)
        as (cp' & item & H1 & H2 & H3 & H4 & H5 & H6 & _ & H8 & _).
      exists cp', item. auto 10.
Qed.

Lemma purchase_checks_then_debits_witness :
  run (buyStructure env0 rocketItem) sessionCreated = sessionCreated
  /\ run (buyCreature env0 blobItem) sessionCreated = sessionCreated
  /\ (exists cp' item,
        currentProfile (run (buyBiome env0 forestItem) sessionCreated) = Some cp'
        /\ crystals cp' = 50 - 50 /\ solarEnergy cp' = 30 - 20
        /\ artifacts cp' = 10 /\ specimens cp' = 5
        /\ planetItems cp' = planetItems sampleProfile ++ [ item ]
        /\ PlanetItem.itemType item = OfBiome forest)
  /\ (exists cp' item,
        currentProfile (run (buyStructure env0 treeItem) sessionCreated) = Some cp'
        /\ crystals cp' = 50 - 15 /\ artifacts cp' = 10 - 3
        /\ specimens cp' = 5 /\ solarEnergy cp' = 30
        /\ planetItems cp' = planetItems sampleProfile ++ [ item ]
        /\ PlanetItem.itemType item = OfStructure tree).
Proof.
  destruct (purchase_checks_then_debits env0 sessionCreated sampleProfile eq_refl)
    as (Hbiome & Hstructure & Hcreature).
  split; [ | split; [ | split ] ].
  - apply (proj1 (Hstructure rocketItem)). left. simpl. lia.
  - apply (proj1 (Hcreature blobItem)). simpl. lia.
  - apply (proj2 (Hbiome forestItem)); simpl; try lia.
    intros [ H | [] ]. discriminate H.
  - apply (proj2 (Hstructure treeItem)); simpl; lia.
Defined.

Lemma not_NoDup_app_In {A} (x : A) (l : list A) : In x l -> ~ NoDup (l ++ [ x ]).
Proof.
  intros Hin Hnd. apply NoDup_remove_2 in Hnd. rewrite app_nil_r in Hnd.
  contradiction.
Qed.

(** C8.  Buying a biome whose type is already unlocked only shows an alert and
    changes nothing.  Buying a structure or a creature whose type is already
    unlocked is not refused: when the profile can afford it the costs are
    debited again and the type is appended to the unlocked list once more, so
    the list holds it twice. *)
Theorem repeat_purchase (env : Env) (s : AppState) (cp : PlayerProfile) :
  currentProfile s = Some cp ->
  (forall biome : BiomeShop.t,
      In (BiomeShop.type biome) (unlockedBiomes cp) ->
      (exists title message, buyBiome env biome s = [ Alert_alert title message ])
      /\ run (buyBiome env biome) s = s)
  /\ (forall structure : StructureShop.t,
        In (StructureShop.type structure) (unlockedStructures cp) ->
        StructureShop.crystals (StructureShop.cost structure) <= crystals cp ->
        StructureShop.artifacts (StructureShop.cost structure) <= artifacts cp ->
        exists cp',
          currentProfile (run (buyStructure env structure) s) = Some cp'
          /\ crystals cp'
             = crystals cp - StructureShop.crystals (StructureShop.cost structure)
          /\ artifacts cp'
             = artifacts cp - StructureShop.artifacts (StructureShop.cost structure)
          /\ unlockedStructures cp'
             = unlockedStructures cp ++ [ StructureShop.type structure ]
          /\ ~ NoDup (unlockedStructures cp')
          /\ alerts (buyStructure env structure s)
             = [ ("Structure Built!",
                  (StructureShop.name structure
                   ++ " has been added to your planet!")%string) ])
  /\ (forall creature : CreatureShop.t,
        In (CreatureShop.type creature) (unlockedCreatures cp) ->
        CreatureShop.specimens (CreatureShop.cost creature) <= specimens cp ->
        exists cp',
          currentProfile (run (buyCreature env creature) s) = Some cp'
          /\ specimens cp'
             = specimens cp - CreatureShop.specimens (CreatureShop.cost creature)
          /\ unlockedCreatures cp'
             = unlockedCreatures cp ++ [ CreatureShop.type creature ]
          /\ ~ NoDup (unlockedCreatures cp')
          /\ alerts (buyCreature env creature s)
             = [ ("Creature Added!",
                  (CreatureShop.name creature ++ " now lives on your planet!")%string) ]).
Proof.
  intros Hcp. split; [ | split ].
  - intros biome Hown.
    destruct (buyBiome_owned env biome s cp Hcp Hown) as (title & message & E).
    split; [ exists title, message; exact E | eapply alert_only_run, E ].
  - intros structure Hown Hc Ha.
    destruct (buyStructure_affordable env structure s cp Hcp Hc Ha)
      as (cp' & item & H1 & H2 & H3 & _ & _ & _ & _ & _ & H9 & H10).
    exists cp'. repeat split; try assumption.
    rewrite H9. apply not_NoDup_app_In, Hown.
  - intros creature Hown Hc.
    destruct (buyCreature_affordable env creature s cp Hcp Hc)
      as (cp' & item & H1 & H2 & _ & _ & _ & _ & _ & _ & H9 & H10).
    exists cp'. repeat split; try assumption.
    rewrite H9. apply not_NoDup_app_In, Hown.
Qed.

Lemma repeat_purchase_witness :
  run (buyBiome env0 grassItem) (withProfile builderProfile) = withProfile builderProfile
  /\ (exists cp',
        currentProfile (run (buyStructure env0 treeItem) (withProfile builderProfile))
        = Some cp'
        /\ crystals cp' = 50 - 15 /\ artifacts cp' = 10 - 3
        /\ unlockedStructures cp' = [ tree ] ++ [ tree ])
  /\ (exists cp',
        currentProfile (run (buyCreature env0 blobItem) (withProfile builderProfile))
        = Some cp'
        /\ specimens cp' = 30 - 10
        /\ unlockedCreatures cp' = [ blob ] ++ [ blob ]).
Proof.
  destruct (repeat_purchase env0 (withProfile builderProfile) builderProfile eq_refl)
    as (Hbiome & Hstructure & Hcreature).
  split; [ | split ].
  - apply (Hbiome grassItem). left. reflexivity.
  - destruct (Hstructure treeItem) as (cp' & H1 & H2 & H3 & H4 & _);
      [ left; reflexivity | simpl; lia | simpl; lia | ].
    exists cp'. auto.
  - destruct (Hcreature blobItem) as (cp' & H1 & H2 & H3 & _);
      [ left; reflexivity | simpl; lia | ].
    exists cp'. auto.
Defined.

(* ================================================================== *)
(** ** Activities *)
(* ================================================================== *)







(* ================================================================== *)
(** ** Maths questions *)
(* ================================================================== *)

Lemma randomBelow_range (r : Unit01) (n : Z) : 0 < n -> 0 <= randomBelow r n < n.
Proof.
  intros Hn. destruct r as [ [ a b ] Hr ]. unfold randomBelow. cbn [value].
  apply andb_true_iff in Hr. destruct Hr as (H0 & H1).
  apply negb_true_iff in H1. unfold Qle_bool in H0, H1. cbn in H0, H1.
  apply Z.leb_le in H0. apply Z.leb_gt in H1.
  unfold Qmult, inject_Z, Qfloor. cbn [Qnum Qden].
  rewrite Pos.mul_1_r. split.
  - apply Z.div_pos; nia.
  - apply Z.div_lt_upper_bound; nia.
Qed.

Lemma Z_to_int_proper (z : Z) :
  Z.to_int z <> Decimal.Pos Decimal.Nil /\ Z.to_int z <> Decimal.Neg Decimal.Nil.
Proof.
  destruct z as [ | p | p ]; simpl; split; try discriminate;
    intros H; injection H as H; apply (DecimalPos.Unsigned.to_uint_nonnil p H).
Qed.

Lemma String_of_inj (a b : Z) : String_of a = String_of b -> a = b.
Proof.
  unfold String_of. intros H.
  destruct (Z_to_int_proper a) as (Ha1 & Ha2), (Z_to_int_proper b) as (Hb1 & Hb2).
  pose proof (NilZero.isi _ Ha1 Ha2) as Ea. pose proof (NilZero.isi _ Hb1 Hb2) as Eb.
  rewrite H in Ea. rewrite Ea in Eb. injection Eb as Eb.
  apply DecimalZ.to_int_inj, Eb.
Qed.

Lemma NoDup_map_String_of (l : list Z) : NoDup l -> NoDup (map String_of l).
Proof.
  induction 1 as [ | x l Hx Hl IH ]; cbn [map]; constructor; [ | exact IH ].
  intros Hin. apply in_map_iff in Hin. destruct Hin as (y & Hy & Hin).
  apply String_of_inj in Hy. subst y. contradiction.
Qed.

Lemma includes_spec (x : Z) (l : list Z) : includes Z.eqb x l = true <-> In x l.
Proof.
  unfold includes. rewrite existsb_exists. split.
  - intros (y & Hin & Heq). apply Z.eqb_eq in Heq. subst y. exact Hin.
  - intros Hin. exists x. split; [ exact Hin | apply Z.eqb_refl ].
Qed.

Lemma insertAt_Permutation {A} (n : nat) (x : A) (l : list A) :
  Permutation (insertAt n x l) (x :: l).
Proof.
  unfold insertAt. rewrite <- (firstn_skipn n l) at 3.
  symmetry. apply Permutation_middle.
Qed.

Lemma sortRandom_Permutation {A} (placement : list nat) (l : list A) :
  Permutation (sortRandom placement l) l.
Proof.
  revert placement. induction l as [ | x l IH ]; intros placement; cbn [sortRandom].
  - constructor.
  - rewrite insertAt_Permutation. constructor. apply IH.
Qed.

Lemma indexOf_In (x : Z) (l : list Z) :
  In x l ->
  0 <= indexOf Z.eqb x l < Z.of_nat (List.length l)
  /\ nth_error l (Z.to_nat (indexOf Z.eqb x l)) = Some x.
Proof.
  induction l as [ | y l IH ]; intros Hin; [ destruct Hin | ].
  cbn [indexOf List.length]. destruct (Z.eqb_spec y x) as [ -> | Hne ].
  - split; [ lia | reflexivity ].
  - destruct Hin as [ Heq | Hin ]; [ contradiction | ].
    destruct (IH Hin) as (Hrange & Hnth).
    destruct (Z.ltb_spec (indexOf Z.eqb x l) 0); [ lia | ].
    split; [ lia | ].
    replace (Z.to_nat (indexOf Z.eqb x l + 1)) with (S (Z.to_nat (indexOf Z.eqb x l)))
      by lia.
    exact Hnth.
Qed.

Section DistractorLoop.

Variable rnd : nat -> Unit01.
Variable answer : Z.

Lemma fillOptions_done (fuel k : nat) (options : list Z) :
  (4 <= List.length options)%nat -> fillOptions fuel rnd k answer options = Some options.
Proof.
  intros H. destruct fuel; cbn [fillOptions];
    destruct (Z.ltb_spec (Z.of_nat (List.length options)) 4); try lia; reflexivity.
Qed.

Lemma fillOptions_step (fuel k : nat) (options : list Z) :
  (List.length options < 4)%nat ->
  fillOptions (S fuel) rnd k answer options
  = let wrong := answer + (randomBelow (rnd k) 10 - 5) in
    if negb (wrong =? answer) && (wrong >=? 0) && negb (includes Z.eqb wrong options)
    then fillOptions fuel rnd (S k) answer (options ++ [ wrong ])
    else fillOptions fuel rnd (S k) answer options.
Proof.
  intros H. cbn [fillOptions].
  destruct (Z.ltb_spec (Z.of_nat (List.length options)) 4); [ reflexivity | lia ].
Qed.

(** What the loop keeps true of [options], and what holds when it ends. *)
Lemma fillOptions_sound (fuel : nat) :
  forall (k : nat) (options result : list Z),
    fillOptions fuel rnd k answer options = Some result ->
    NoDup options -> Forall (fun v => 0 <= v) options -> In answer options ->
    (List.length options <= 4)%nat ->
    NoDup result /\ Forall (fun v => 0 <= v) result /\ In answer result
    /\ List.length result = 4%nat.
Proof.
  induction fuel as [ | fuel IH ]; intros k options result Hrun Hnd Hpos Hin Hlen.
  - cbn [fillOptions] in Hrun.
    destruct (Z.ltb_spec (Z.of_nat (List.length options)) 4); [ discriminate | ].
    injection Hrun as <-. repeat split; try assumption. lia.
  - destruct (Nat.lt_ge_cases (List.length options) 4) as [ Hlt | Hge ].
    + rewrite (fillOptions_step fuel k options Hlt) in Hrun. cbv zeta in Hrun.
      set (wrong := answer + (randomBelow (rnd k) 10 - 5)) in Hrun.
      destruct (negb (wrong =? answer)) eqn:Hne; cbn [andb] in Hrun;
        [ | eapply IH; eassumption ].
      destruct (Z.geb_spec wrong 0) as [ Hw | Hw ]; cbn [andb] in Hrun;
        [ | eapply IH; eassumption ].
      destruct (includes Z.eqb wrong options) eqn:Hinc; cbn [negb] in Hrun;
        [ eapply IH; eassumption | ].
      apply (IH _ _ _ Hrun).
      * apply NoDup_app; [ exact Hnd | repeat constructor; intros [] | ].
        intros x Hx [ <- | [] ]. apply includes_spec in Hx. congruence.
      * apply Forall_app; split; [ exact Hpos | repeat constructor; lia ].
      * apply in_or_app. left. exact Hin.
      * rewrite length_app. cbn [List.length]. lia.
    + rewrite (fillOptions_done (S fuel) k options Hge) in Hrun. injection Hrun as <-.
      repeat split; try assumption. lia.
Qed.

(** With fewer than four options, one of answer+1, ..., answer+4 is new. *)
Lemma free_candidate (options : list Z) :
  (List.length options < 4)%nat ->
  exists d, 6 <= d <= 9 /\ includes Z.eqb (answer + (d - 5)) options = false.
Proof.
  intros Hlen.
  destruct (includes Z.eqb (answer + (6 - 5)) options) eqn:H6;
    [ | exists 6; split; [ lia | exact H6 ] ].
  destruct (includes Z.eqb (answer + (7 - 5)) options) eqn:H7;
    [ | exists 7; split; [ lia | exact H7 ] ].
  destruct (includes Z.eqb (answer + (8 - 5)) options) eqn:H8;
    [ | exists 8; split; [ lia | exact H8 ] ].
  destruct (includes Z.eqb (answer + (9 - 5)) options) eqn:H9;
    [ | exists 9; split; [ lia | exact H9 ] ].
  apply includes_spec in H6, H7, H8, H9. exfalso.
  assert (Hnd : NoDup [ answer + (6 - 5); answer + (7 - 5); answer + (8 - 5);
                        answer + (9 - 5) ]).
  { repeat constructor; cbn [In]; lia. }
  assert (Hincl : incl [ answer + (6 - 5); answer + (7 - 5); answer + (8 - 5);
                         answer + (9 - 5) ] options).
  { intros x [ <- | [ <- | [ <- | [ <- | [] ] ] ] ]; assumption. }
  pose proof (NoDup_incl_length Hnd Hincl) as Hle. cbn [List.length] in Hle. lia.
Qed.

Hypothesis rnd_fair : fair rnd.
Hypothesis answer_nonneg : 0 <= answer.

(** On a fair stream the loop ends: a new candidate is drawn at some later
    index, and until then each iteration either adds an option or moves on. *)
Lemma fillOptions_terminates :
  forall (missing : nat) (options : list Z) (k : nat),
    (List.length options + missing = 4)%nat ->
    exists fuel result, fillOptions fuel rnd k answer options = Some result.
Proof.
  induction missing as [ | missing IH ]; intros options k Hlen.
  - exists 0%nat, options. apply fillOptions_done. lia.
  - assert (Hlt : (List.length options < 4)%nat) by lia.
    destruct (free_candidate options Hlt) as (d & Hd & Hfree).
    destruct (rnd_fair k d ltac:(lia)) as (m & Hkm & Hdraw).
    assert (Hgap : exists gap, (k + gap = m)%nat) by (exists (m - k)%nat; lia).
    destruct Hgap as (gap & Hgap). clear Hkm.
    revert k Hgap. induction gap as [ | gap IHgap ]; intros k Hgap.
    + replace k with m by lia.
      destruct (IH (options ++ [ answer + (d - 5) ]) (S m)) as (fuel & result & Hrun).
      { rewrite length_app. cbn [List.length]. lia. }
      exists (S fuel), result. rewrite (fillOptions_step fuel m options Hlt). cbv zeta.
      rewrite Hdraw, Hfree.
      destruct (Z.eqb_spec (answer + (d - 5)) answer); [ lia | ].
      destruct (Z.geb_spec (answer + (d - 5)) 0); [ | lia ].
      exact Hrun.
    + destruct (negb (answer + (randomBelow (rnd k) 10 - 5) =? answer)
                && (answer + (randomBelow (rnd k) 10 - 5) >=? 0)
                && negb (includes Z.eqb (answer + (randomBelow (rnd k) 10 - 5)) options))
        eqn:Hguard.
      * destruct (IH (options ++ [ answer + (randomBelow (rnd k) 10 - 5) ]) (S k))
          as (fuel & result & Hrun).
        { rewrite length_app. cbn [List.length]. lia. }
        exists (S fuel), result. rewrite (fillOptions_step fuel k options Hlt). cbv zeta.
        rewrite Hguard. exact Hrun.
      * destruct (IHgap (S k) ltac:(lia)) as (fuel & result & Hrun).
        exists (S fuel), result. rewrite (fillOptions_step fuel k options Hlt). cbv zeta.
        rewrite Hguard. exact Hrun.
Qed.

End DistractorLoop.

Lemma drawProblem_sound (env : Env) (min max : Z) (operation : string) :
  min = 1 -> 1 <= max ->
  0 <= answer (drawProblem env min max operation)
  /\ soundProblem (drawProblem env min max operation).
Proof.
  intros -> Hmax. unfold drawProblem, soundProblem. cbv zeta.
  pose proof (randomBelow_range (Math_random env 1) (max - 1 + 1) ltac:(lia)) as Ha.
  pose proof (randomBelow_range (Math_random env 2) (max - 1 + 1) ltac:(lia)) as Hb.
  pose proof (randomBelow_range (Math_random env 1) 12 ltac:(lia)) as Ha12.
  pose proof (randomBelow_range (Math_random env 2) 12 ltac:(lia)) as Hb12.
  pose proof (randomBelow_range (Math_random env 1) max ltac:(lia)) as Hamax.
  pose proof (randomBelow_range (Math_random env 2) max ltac:(lia)) as Hbmax.
  destruct (operation =? "addition")%string.
  { cbn [answer operand_a operand_b questionText]. split; [ lia | left; auto ]. }
  destruct (operation =? "subtraction")%string.
  { pose proof (randomBelow_range (Math_random env 2)
                  (Z.min (randomBelow (Math_random env 1) (max - 1 + 1) + 1) max)
                  ltac:(lia)) as Hb'.
    destruct (Z.gtb_spec
                (randomBelow (Math_random env 2)
                   (Z.min (randomBelow (Math_random env 1) (max - 1 + 1) + 1) max) + 1)
                (randomBelow (Math_random env 1) (max - 1 + 1) + 1));
      cbn [answer operand_a operand_b questionText];
      (split; [ lia | right; left; auto ]). }
  destruct (operation =? "multiplication")%string.
  { cbn [answer operand_a operand_b questionText]. split; [ nia | right; right; left; auto ]. }
  destruct (operation =? "division")%string.
  { cbn [answer operand_a operand_b questionText].
    split; [ lia | right; right; right; repeat split; lia ]. }
  cbn [answer operand_a operand_b questionText]. split; [ lia | left; auto ].
Qed.

Lemma askedProblem_sound (env : Env) (cp : PlayerProfile) :
  0 <= answer (askedProblem env cp) /\ soundProblem (askedProblem env cp).
Proof.
  unfold askedProblem. cbv zeta.
  apply drawProblem_sound; destruct (ageGroup cp); cbn; lia.
Qed.

Lemma generateMathsQuestion_profile (fuel : nat) (env : Env) (s : AppState)
  (cp : PlayerProfile) :
  currentProfile s = Some cp ->
  generateMathsQuestion fuel env s
  = match fillOptions fuel (Math_random env) 3 (answer (askedProblem env cp))
            [ answer (askedProblem env cp) ] with
    | None => None
    | Some options =>
        let shuffled := sortRandom (sortPlacement env) options in
        Some (Question.mk (questionText (askedProblem env cp)) (map String_of shuffled)
                (indexOf Z.eqb (answer (askedProblem env cp)) shuffled) None)
    end.
Proof. intros Hcp. unfold generateMathsQuestion. rewrite Hcp. reflexivity. Qed.

(** C6 as stated fails: on the stream whose every result is 0.5 the offset
    [Math.floor(0.5 * 10) - 5] is 0, the candidate is the answer itself every
    time, and the loop of [generateMathsQuestion] never ends. *)
Lemma fillOptions_half_stuck (answer : Z) (fuel k : nat) :
  fillOptions fuel (fun _ => r_half) k answer [ answer ] = None.
Proof.
  revert k. induction fuel as [ | fuel IH ]; intros k; [ reflexivity | ].
  rewrite fillOptions_step by (cbn [List.length]; lia). cbv zeta.
  change (randomBelow r_half 10 - 5) with 0.
  rewrite Z.add_0_r, Z.eqb_refl. cbn [negb andb]. apply IH.
Qed.

Lemma maths_generation_constant_stream_counterexample :
  ~ (exists fuel q,
        generateMathsQuestion fuel (sampleEnv (fun _ => r_half)) sessionCreated = Some q).
Proof.
  intros (fuel & q & H).
  rewrite (generateMathsQuestion_profile fuel _ sessionCreated sampleProfile eq_refl) in H.
  cbn [Math_random sampleEnv] in H. rewrite fillOptions_half_stuck in H. discriminate H.
Qed.

(** C6, amended.  For a current profile of any age group: the problem drawn
    has the answer its text asks for; every question the generator returns
    has exactly four pairwise different options, the decimal forms of
    pairwise different non-negative integers, with the answer among them at
    [correctIndex]; and on a fair stream of random results the generator
    returns a question. *)
Theorem maths_question_has_four_options (env : Env) (s : AppState)
  (cp : PlayerProfile) :
  currentProfile s = Some cp ->
  soundProblem (askedProblem env cp)
  /\ (forall fuel q,
        generateMathsQuestion fuel env s = Some q ->
        fourOptionQuestion (askedProblem env cp) q)
  /\ (fair (Math_random env) ->
      exists fuel q,
        generateMathsQuestion fuel env s = Some q
        /\ fourOptionQuestion (askedProblem env cp) q).
Proof.
  intros Hcp. destruct (askedProblem_sound env cp) as (Hans & Hsound).
  assert (Hgood : forall fuel q,
             generateMathsQuestion fuel env s = Some q ->
             fourOptionQuestion (askedProblem env cp) q).
  { intros fuel q Hq. rewrite (generateMathsQuestion_profile fuel env s cp Hcp) in Hq.
    destruct (fillOptions fuel _ 3 _ _) as [ options | ] eqn:Hfill; [ | discriminate ].
    cbv zeta in Hq. injection Hq as <-.
    destruct (fillOptions_sound _ _ _ _ _ _ Hfill) as (Hnd & Hpos & Hin & Hlen).
    { repeat constructor. intros []. }
    { repeat constructor. exact Hans. }
    { left. reflexivity. }
    { cbn [List.length]. lia. }
    pose proof (sortRandom_Permutation (sortPlacement env) options) as Hperm.
    set (shuffled := sortRandom (sortPlacement env) options) in *.
    assert (Hin' : In (answer (askedProblem env cp)) shuffled)
      by (eapply Permutation_in; [ symmetry; exact Hperm | exact Hin ]).
    assert (Hlen' : List.length shuffled = 4%nat)
      by (rewrite (Permutation_length Hperm); exact Hlen).
    destruct (indexOf_In _ _ Hin') as (Hrange & Hnth).
    split; [ reflexivity | ]. exists shuffled. cbn [Question.options Question.correctIndex].
    assert (Hnd' : NoDup shuffled)
      by (eapply Permutation_NoDup; [ symmetry; exact Hperm | exact Hnd ]).
    repeat split; try assumption; try lia.
    - eapply Permutation_Forall; [ symmetry; exact Hperm | exact Hpos ].
    - apply NoDup_map_String_of, Hnd'.
    - apply map_nth_error, Hnth. }
  split; [ exact Hsound | split; [ exact Hgood | ] ].
  intros Hfair.
  destruct (fillOptions_terminates (Math_random env) (answer (askedProblem env cp))
              Hfair Hans 3%nat [ answer (askedProblem env cp) ] 3%nat eq_refl)
    as (fuel & options & Hfill).
  exists fuel. eexists. split.
  - rewrite (generateMathsQuestion_profile fuel env s cp Hcp), Hfill. reflexivity.
  - apply (Hgood fuel).
    rewrite (generateMathsQuestion_profile fuel env s cp Hcp), Hfill. reflexivity.
Qed.

Lemma cyclingRandom_fair : fair cyclingRandom.
Proof.
  intros n d Hd. exists (10 * n + Z.to_nat d)%nat. split; [ lia | ].
  unfold cyclingRandom.
  replace ((10 * n + Z.to_nat d) mod 10)%nat with (Z.to_nat d).
  - assert (Hcases : d = 0 \/ d = 1 \/ d = 2 \/ d = 3 \/ d = 4 \/ d = 5 \/ d = 6
                     \/ d = 7 \/ d = 8 \/ d = 9) by lia.
    repeat (destruct Hcases as [ -> | Hcases ]; [ reflexivity | ]).
    subst d. reflexivity.
  - replace (10 * n + Z.to_nat d)%nat with (Z.to_nat d + n * 10)%nat by lia.
    rewrite Nat.Div0.mod_add. symmetry. apply Nat.mod_small. lia.
Qed.

Lemma maths_question_has_four_options_witness :
  soundProblem (askedProblem env0 sampleProfile)
  /\ exists fuel q,
      generateMathsQuestion fuel env0 sessionCreated = Some q
      /\ fourOptionQuestion (askedProblem env0 sampleProfile) q.
Proof.
  destruct (maths_question_has_four_options env0 sessionCreated sampleProfile eq_refl)
    as (Hsound & _ & Hreturns).
  split; [ exact Hsound | apply Hreturns, cyclingRandom_fair ].
Defined.
